(** * go-dwolla: the customer package and the facade, embedded in Rocq

    The development follows the Go sources [dwolla/customer/customer.go] and
    [dwolla/dwolla.go].  Every operation of the customer package is one HTTP
    round trip: fetch a token, build a request, add headers, send, and switch
    on the status code.  The embedding keeps that shape:

    - a Go [string] is a [string] (a sequence of bytes), an [int] status code
      is a [Z], a [map[string]T] is a [gmap string T] read with the zero value
      as default, a slice is a [list];
    - a Go [error] is an [option error] ([None] is [nil]); a function that
      returns [(T, error)] returns a pair;
    - an interface value that may be [nil] is an [option]; calling a method
      on [nil] panics;
    - what the code does to the outside (requests handed to the HTTP client,
      bytes copied to standard output) is recorded in a [World] threaded
      through a small state-and-panic monad;
    - the behaviour of the Go libraries the code calls (the HTTP transport,
      [encoding/json], [mime/multipart], URL parsing) is a parameter, the
      record [Runtime]. Pointer arguments ([*Customer], [*os.File],
      [*funding.Resource]) are taken to be non-nil. *)

From Stdlib Require Import ZArith Ascii String Bool Lia.
From stdpp Require Import base option list strings gmap.

Local Open Scope Z_scope.

(** ** Package strings (Go standard library) *)
Module gostrings.

(** [len(s) >= len(prefix) && s[0:len(prefix)] == prefix] *)
Definition HasPrefix (s prefix : string) : bool :=
  (String.length prefix <=? String.length s)%nat
  && String.eqb (String.substring 0 (String.length prefix) s) prefix.

(** [if HasPrefix(s, prefix) { return s[len(prefix):] }; return s] *)
Definition TrimPrefix (s prefix : string) : string :=
  if HasPrefix s prefix
  then String.substring (String.length prefix)
         (String.length s - String.length prefix) s
  else s.

(** Substring test, for classifying error messages. *)
Fixpoint Contains (s substr : string) : bool :=
  String.prefix substr s
  || match s with
     | EmptyString => false
     | String _ s' => Contains s' substr
     end.

Definition HasSuffix (s suffix : string) : bool :=
  (String.length suffix <=? String.length s)%nat
  && String.eqb
       (String.substring (String.length s - String.length suffix)
          (String.length suffix) s) suffix.

End gostrings.

(** ** Package github.com/pkg/errors *)
Module errors.

(** [fundamental] is what [errors.New] builds, [withMessage] what
    [errors.Wrap] builds around a cause. *)
Inductive error : Type :=
| fundamental (msg : string)
| withMessage (cause : error) (msg : string).

Definition New (message : string) : option error :=
  Some (fundamental message).

(** [Wrap] of a nil error is nil. *)
Definition Wrap (err : option error) (message : string) : option error :=
  match err with
  | None => None
  | Some e => Some (withMessage e message)
  end.

(** The [Error()] method. *)
Fixpoint Error (e : error) : string :=
  match e with
  | fundamental msg => msg
  | withMessage cause msg => msg +:+ ": " +:+ Error cause
  end.

End errors.

Abbreviation error := errors.error.

(** ** Package net/textproto: canonical header keys *)
Module textproto.

Definition isLower (c : ascii) : bool :=
  let n := nat_of_ascii c in ((97 <=? n) && (n <=? 122))%nat.
Definition isUpper (c : ascii) : bool :=
  let n := nat_of_ascii c in ((65 <=? n) && (n <=? 90))%nat.
Definition isDigit (c : ascii) : bool :=
  let n := nat_of_ascii c in ((48 <=? n) && (n <=? 57))%nat.

(** The token bytes of RFC 7230. *)
Definition validHeaderFieldByte (c : ascii) : bool :=
  isLower c || isUpper c || isDigit c
  || existsb (Ascii.eqb c) (list_ascii_of_string "!#$%&'*+-.^_`|~").

(** First letter and every letter after a dash in upper case, the others
    in lower case. *)
Fixpoint canonicalize (upper : bool) (s : string) : string :=
  match s with
  | EmptyString => EmptyString
  | String c s' =>
      let c' :=
        if upper && isLower c then ascii_of_nat (nat_of_ascii c - 32)
        else if negb upper && isUpper c then ascii_of_nat (nat_of_ascii c + 32)
        else c in
      String c' (canonicalize (Ascii.eqb c' "-") s')
  end.

(** A key holding a byte that is not a token byte is returned as it is. *)
Definition CanonicalMIMEHeaderKey (s : string) : string :=
  if forallb validHeaderFieldByte (list_ascii_of_string s)
  then canonicalize true s
  else s.

End textproto.

(** ** Package net/http: headers, requests, responses *)
Module http.

(** [type Header map[string][]string] *)
Abbreviation Header := (gmap string (list string)).

(** [h.Add(key, value)]: append under the canonical key. *)
Definition Header_Add (h : Header) (key value : string) : Header :=
  let k := textproto.CanonicalMIMEHeaderKey key in
  <[k := default [] (h !! k) ++ [value]]> h.

(** [h.Get(key)]: first value under the canonical key, or the empty string. *)
Definition Header_Get (h : Header) (key : string) : string :=
  match h !! textproto.CanonicalMIMEHeaderKey key with
  | Some (v :: _) => v
  | _ => ""
  end.

(** A request.  [URL] is the URL string the request was made from, as it
    was given to [http.NewRequest]; the parsed form Go keeps beside it is
    not part of the model. *)
Record Request : Type := mkRequest {
  Method : string;
  URL : string;
  ReqHeader : Header;
  ReqBody : option string
}.

Record Response : Type := mkResponse {
  Status : string;
  StatusCode : Z;
  RespHeader : Header;
  Body : string
}.

(** [req.Header.Add(key, value)] *)
Definition Add (req : Request) (key value : string) : Request :=
  {| Method := Method req; URL := URL req;
     ReqHeader := Header_Add (ReqHeader req) key value;
     ReqBody := ReqBody req |}.

End http.

(** ** Package dwolla/client *)
Module client.

(** Modelled from the spec: the package is not among the sources.  The
    customer package uses two methods of the interface [DwollaClient],
    [AuthToken() (string, error)] and [RootURL() string]; a client is the
    pair of what they return.  [Link] is the hypermedia link with its
    [Href]. *)
Record DwollaClient : Type := mkClient {
  AuthToken : string * option error;
  RootURL : string
}.

Record Link : Type := mkLink { Href : string }.

(** The zero value a Go map lookup yields for a missing key. *)
Definition zeroLink : Link := {| Href := "" |}.

End client.

(** ** Package dwolla/funding *)
Module funding.

(** Modelled from the spec: the declaration of [funding.Resource] that
    customer.go is compiled against is not among the sources.  The fields
    are those [ListFundingSources] copies one by one (customer.go, lines
    476-491), typed as in funding/funding.go; [Client] and [PlaidToken] are
    the two fields that file does not have. *)
Record Resource : Type := mkResource {
  Client : option client.DwollaClient;
  ID : string;
  Status : string;
  AccountNumber : string;
  RoutingNumber : string;
  BankAccountType : string;
  Name : string;
  BankName : string;
  Type_ : string;
  CreatedAt : string;
  Removed : bool;
  PlaidToken : string;
  Channels : list string;
  Links : gmap string client.Link
}.

(** The envelope of a list response; customer.go reads its [Embedded]. *)
Record ListResourcesResponse : Type := mkListResourcesResponse {
  ListLinks : gmap string client.Link;
  Embedded : gmap string (list Resource)
}.

End funding.

(** ** Package dwolla/transfer *)
Module transfer.

(** Modelled from the spec: the package is not among the sources.  A
    transfer has an id, a status, an amount and links (section 3 of the
    specification); customer.go only passes transfers on. *)
Record Transfer : Type := mkTransfer {
  ID : string;
  Status : string;
  Amount : string;
  Links : gmap string client.Link
}.

Record ListTransferResponse : Type := mkListTransferResponse {
  ListLinks : gmap string client.Link;
  Embedded : gmap string (list Transfer)
}.

End transfer.

(** ** The world outside and the monad the operations run in *)
Module go.

(** [sent] holds the requests handed to [http.Client.Do], oldest first;
    [stdout] the bytes written to [os.Stdout]. *)
Record World : Type := mkWorld {
  sent : list http.Request;
  stdout : string
}.

Inductive outcome (A : Type) : Type :=
| Ret (a : A) (w : World)
| Panic (w : World).
Arguments Ret {A} a w.
Arguments Panic {A} w.

Definition M (A : Type) : Type := World -> outcome A.

Definition ret {A} (a : A) : M A := fun w => Ret a w.

Definition bind {A B} (m : M A) (k : A -> M B) : M B :=
  fun w => match m w with
           | Ret a w' => k a w'
           | Panic w' => Panic w'
           end.

Definition panic {A} : M A := fun w => Panic w.

(** A method call through an interface value: a nil receiver panics. *)
Definition deref {A} (p : option A) : M A :=
  match p with
  | Some a => ret a
  | None => panic
  end.

(** [io.Copy(os.Stdout, r)] for a reader holding [bytes]. *)
Definition copy_to_stdout (bytes : string) : M unit :=
  fun w => Ret tt {| sent := sent w; stdout := stdout w +:+ bytes |}.

(** Record a request as handed to the HTTP client. *)
Definition log_request (req : http.Request) : M unit :=
  fun w => Ret tt {| sent := sent w ++ [req]; stdout := stdout w |}.

(** The world a computation leaves behind, whether it returns or panics. *)
Definition final_world {A} (o : outcome A) : World :=
  match o with
  | Ret _ w => w
  | Panic w => w
  end.

(** Running [m] from [w] hands exactly one request, [req], to the HTTP
    client. *)
Definition hands_over {A} (m : M A) (w : World) (req : http.Request) : Prop :=
  sent (final_world (m w)) = sent w ++ [req].

End go.

Notation "x <- m ;; k" := (go.bind m (fun x => k))
  (at level 100, m at next level, right associativity, only parsing).

(** [if err != nil { return r }] followed by the rest of the body. *)
Notation "'if_err' err 'then_return' r 'else' k" :=
  (match err with Some _ => go.ret r | None => k end)
  (at level 10, err at level 9, r at level 200, k at level 200, only parsing).

(** A library call that yields either a value or a non-nil error. *)
Notation "'try' x 'from' e 'on_err' err 'return' r 'else' k" :=
  (match e with inl x => k | inr err => go.ret r end)
  (at level 10, x name, err name, e at level 200, r at level 200,
   k at level 200, only parsing).

(** ** Package dwolla/customer *)
Module customer.

Import go.

(** [type Customer struct] *)
Record Customer : Type := mkCustomer {
  Client : option client.DwollaClient;
  ID : string;
  FirstName : string;
  LastName : string;
  Email : string;
  Type_ : string;
  Status : string;
  BusinessName : string;
  IPAddress : string;
  CreatedAt : string;
  DateOfBirth : string;
  SSN : string;
  State : string;
  PostalCode : string;
  City : string;
  Address : string;
  Passport : string;
  Links : gmap string client.Link
}.

(** [customer.Client = c] on a value of type [Customer]. *)
Definition set_Client (cu : Customer) (c : option client.DwollaClient) : Customer :=
  {| Client := c; ID := ID cu; FirstName := FirstName cu;
     LastName := LastName cu; Email := Email cu; Type_ := Type_ cu;
     Status := Status cu; BusinessName := BusinessName cu;
     IPAddress := IPAddress cu; CreatedAt := CreatedAt cu;
     DateOfBirth := DateOfBirth cu; SSN := SSN cu; State := State cu;
     PostalCode := PostalCode cu; City := City cu; Address := Address cu;
     Passport := Passport cu; Links := Links cu |}.

(** [type Document struct]; the field names carry the prefix [Document_]
    because [Customer] has fields of the same names. *)
Record Document : Type := mkDocument {
  Document_Client : option client.DwollaClient;
  Document_Links : gmap string client.Link;
  Document_ID : string;
  Document_Status : string;
  Document_Type : string;
  Document_CreatedAt : string
}.

Record listCustomersResponse : Type := mklistCustomersResponse {
  listCustomers_Links : gmap string client.Link;
  listCustomers_Embedded : gmap string (list Customer)
}.

Record listDocumentsResponse : Type := mklistDocumentsResponse {
  listDocuments_Links : gmap string client.Link;
  listDocuments_Embedded : gmap string (list Document)
}.

Record createFudingSourceToken : Type := mkcreateFudingSourceToken {
  Token : string;
  Token_Links : gmap string (gmap string string)
}.

(** [*os.File]: the name [file.Name()] returns and the bytes behind it. *)
Record File : Type := mkFile {
  File_Name : string;
  File_bytes : string
}.

(** What the Go libraries do, as far as the package can observe it.

    - [http_NewRequest_err method url]: the error of [http.NewRequest], if
      the method or the URL is refused;
    - [http_Do req]: the response, or the transport error, of
      the HTTP client's [Do];
    - [json_Marshal_*]: the bytes and the error of [json.Marshal];
    - [json_Decode_* bytes]: what [Decode] leaves in a fresh zero value of
      the target type when it reads [bytes], and the error it returns;
    - [multipart_*], [io_Copy_file]: each takes the buffer the multipart
      writer writes to and returns the buffer afterwards and the error. *)
Record Runtime : Type := mkRuntime {
  http_NewRequest_err : string -> string -> option error;
  http_Do : http.Request -> http.Response + error;
  json_Marshal_Customer : Customer -> string * option error;
  json_Marshal_Resource : funding.Resource -> string * option error;
  json_Decode_listCustomersResponse : string -> listCustomersResponse * option error;
  json_Decode_Customer : string -> Customer * option error;
  json_Decode_listDocumentsResponse : string -> listDocumentsResponse * option error;
  json_Decode_Document : string -> Document * option error;
  json_Decode_createFudingSourceToken : string -> createFudingSourceToken * option error;
  json_Decode_ListResourcesResponse : string -> funding.ListResourcesResponse * option error;
  json_Decode_ListTransferResponse : string -> transfer.ListTransferResponse * option error;
  multipart_CreateFormFile : string -> string -> string -> string * option error;
  io_Copy_file : File -> string -> string * option error;
  multipart_WriteField : string -> string -> string -> string * option error;
  multipart_Close : string -> string
}.

(** The vendor media type. *)
Definition halJSON : string := "application/vnd.dwolla.v1.hal+json".

Section Operations.

Variable rt : Runtime.

(** [http.NewRequest(method, url, body)]: a request with no headers yet,
    which remembers the URL string it was given. *)
Definition NewRequest (method url : string) (body : option string)
  : http.Request + error :=
  match http_NewRequest_err rt method url with
  | Some e => inr e
  | None => inl {| http.Method := method; http.URL := url;
                   http.ReqHeader := ∅; http.ReqBody := body |}
  end.

(** [hc.Do(req)] *)
Definition Do (req : http.Request) : M (http.Response + error) :=
  _ <- log_request req ;;
  ret (http_Do rt req).

(** [func Create(c client.DwollaClient, cu *Customer) (string, error)] *)
Definition Create (c : option client.DwollaClient) (cu : Customer)
  : M (string * option error) :=
  cl <- deref c ;;
  let '(token, err) := client.AuthToken cl in
  if_err err then_return ("", errors.Wrap err "failed to get auth token") else
  let '(body, err) := json_Marshal_Customer rt cu in
  if_err err then_return ("", errors.Wrap err "error marshalling customer into req body") else
  try req from NewRequest "POST" (client.RootURL cl +:+ "/customers") (Some body)
  on_err e return ("", errors.Wrap (Some e) "error creating the request") else
  let req := http.Add req "Authorization" ("Bearer " +:+ token) in
  let req := http.Add req "Accept" "application/vnd.dwolla.v1.hal+json" in
  let req := http.Add req "Content-Type" "application/vnd.dwolla.v1.hal+json" in
  r <- Do req ;;
  try res from r
  on_err e return ("", errors.Wrap (Some e) "failed to make request to dwolla api") else
  if http.StatusCode res =? 201 then
    ret (gostrings.TrimPrefix (http.Header_Get (http.RespHeader res) "Location")
           (client.RootURL cl +:+ "/customers/"), None)
  else if http.StatusCode res =? 403 then
    ret ("", errors.New "not authorized to create customers")
  else if http.StatusCode res =? 400 then
    _ <- copy_to_stdout (http.Body res) ;;
    ret ("", errors.New "duplicate customer or validation error")
  else if http.StatusCode res =? 404 then
    ret ("", errors.New "account not found")
  else
    ret ("", errors.New (http.Status res)).

(** The loop of [List],

      [for _, customer := range body.Embedded["customers"] { customer.Client = c }]

    A [range] loop copies each element of the slice into its variable
    [customer]; the body assigns to a field of that variable.  The state of
    the loop is the slice's elements and the variable. *)
Record range_state : Type := mkRangeState {
  elements : list Customer;
  customer_var : option Customer
}.

Definition range_body (c : option client.DwollaClient)
  (st : range_state) (element : Customer) : range_state :=
  let customer := element in
  let customer := set_Client customer c in
  {| elements := elements st; customer_var := Some customer |}.

Definition range_customers (c : option client.DwollaClient)
  (s : list Customer) : range_state :=
  fold_left (range_body c) s {| elements := s; customer_var := None |}.

(** [func List(c client.DwollaClient) ([]Customer, error)] *)
Definition List (c : option client.DwollaClient)
  : M (list Customer * option error) :=
  cl <- deref c ;;
  let '(token, err) := client.AuthToken cl in
  if_err err then_return ([], errors.Wrap err "failed to get auth token") else
  try req from NewRequest "GET" (client.RootURL cl +:+ "/customers") None
  on_err e return ([], errors.Wrap (Some e) "error creating the request") else
  let req := http.Add req "Authorization" ("Bearer " +:+ token) in
  let req := http.Add req "Accept" "application/vnd.dwolla.v1.hal+json" in
  r <- Do req ;;
  try res from r
  on_err e return ([], errors.Wrap (Some e) "failed to make request to dwolla api") else
  if http.StatusCode res =? 200 then
    let '(body, err) := json_Decode_listCustomersResponse rt (http.Body res) in
    let st := range_customers c
                (default [] (listCustomers_Embedded body !! "customers")) in
    ret (elements st, None)
  else if http.StatusCode res =? 403 then
    ret ([], errors.New "not authorized to list customers")
  else if http.StatusCode res =? 404 then
    ret ([], errors.New "account not found")
  else
    ret ([], errors.New (http.Status res)).

(** [func GetCustomer(c client.DwollaClient, customerID string)], returning
    a [*Customer] and an [error] *)
Definition GetCustomer (c : option client.DwollaClient) (customerID : string)
  : M (option Customer * option error) :=
  cl <- deref c ;;
  let '(token, err) := client.AuthToken cl in
  if_err err then_return (None, errors.Wrap err "failed to get auth token") else
  try req from NewRequest "GET" (client.RootURL cl +:+ "/customers/" +:+ customerID) None
  on_err e return (None, errors.Wrap (Some e) "error creating the request") else
  let req := http.Add req "Authorization" ("Bearer " +:+ token) in
  let req := http.Add req "Accept" "application/vnd.dwolla.v1.hal+json" in
  r <- Do req ;;
  try res from r
  on_err e return (None, errors.Wrap (Some e) "failed to make request to dwolla api") else
  if http.StatusCode res =? 200 then
    let '(body, err) := json_Decode_Customer rt (http.Body res) in
    if_err err then_return (None, errors.Wrap err "error parsing JSON response") else
    let body := set_Client body c in
    ret (Some body, None)
  else if http.StatusCode res =? 403 then
    ret (None, errors.New "not authorized to retrieve the customer")
  else if http.StatusCode res =? 404 then
    ret (None, errors.New "account not found")
  else
    ret (None, errors.New (http.Status res)).

(** [func (cu *Customer) Update() error] *)
Definition Update (cu : Customer) : M (option error) :=
  let c := Client cu in
  cl <- deref c ;;
  let '(token, err) := client.AuthToken cl in
  if_err err then_return (errors.Wrap err "failed to get auth token") else
  let '(body, err) := json_Marshal_Customer rt cu in
  if_err err then_return (errors.Wrap err "error marshalling customer into req body") else
  try req from NewRequest "POST" (client.RootURL cl +:+ "/customers/" +:+ ID cu) (Some body)
  on_err e return (errors.Wrap (Some e) "error creating the request") else
  let req := http.Add req "Authorization" ("Bearer " +:+ token) in
  let req := http.Add req "Accept" "application/vnd.dwolla.v1.hal+json" in
  let req := http.Add req "Content-Type" "application/vnd.dwolla.v1.hal+json" in
  r <- Do req ;;
  try res from r
  on_err e return (errors.Wrap (Some e) "failed to make request to dwolla api") else
  if http.StatusCode res =? 200 then
    ret None
  else if http.StatusCode res =? 403 then
    ret (errors.New "not authorized to update the customer")
  else if http.StatusCode res =? 404 then
    ret (errors.New "account not found")
  else
    ret (errors.New (http.Status res)).

(** [func (cu *Customer) AddDocument(file *os.File, documentType string) error].
    The multipart writer writes to a buffer that starts empty; the buffer is
    the body of the request. *)
Definition AddDocument (cu : Customer) (file : File) (documentType : string)
  : M (option error) :=
  let c := Client cu in
  cl <- deref c ;;
  let '(token, err) := client.AuthToken cl in
  if_err err then_return (errors.Wrap err "failed to get auth token") else
  if_err err then_return (errors.Wrap err "error parsing file") else
  let body := "" in
  let '(body, err) := multipart_CreateFormFile rt "file" (File_Name file) body in
  if_err err then_return (errors.Wrap err "error uploading file") else
  let '(body, err) := io_Copy_file rt file body in
  if_err err then_return (errors.Wrap err "error uploading file") else
  let '(body, err) := multipart_WriteField rt "documentType" documentType body in
  if_err err then_return (errors.Wrap err "error uploading file") else
  let body := multipart_Close rt body in
  try req from NewRequest "POST"
                 (client.RootURL cl +:+ "/customers/+" +:+ ID cu +:+ "/documents")
                 (Some body)
  on_err e return (errors.Wrap (Some e) "error creating the request") else
  let req := http.Add req "Authorization" ("Bearer " +:+ token) in
  let req := http.Add req "Accept" "application/vnd.dwolla.v1.hal+json" in
  let req := http.Add req "Content-Type"
               "multipart/form-data; boundary=----WebKitFormBoundary7MA4YWxkTrZu0gW" in
  let req := http.Add req "Cache-Control" "no-cache" in
  r <- Do req ;;
  try res from r
  on_err e return (errors.Wrap (Some e) "failed to make request to dwolla api") else
  if http.StatusCode res =? 201 then
    ret None
  else if http.StatusCode res =? 403 then
    ret (errors.New "not authorized to uplaod document to customer")
  else if http.StatusCode res =? 404 then
    ret (errors.New "account not found")
  else
    ret (errors.New (http.Status res)).

(** [func (cu *Customer) ListDocuments() ([]Document, error)] *)
Definition ListDocuments (cu : Customer) : M (list Document * option error) :=
  let c := Client cu in
  cl <- deref c ;;
  let '(token, err) := client.AuthToken cl in
  if_err err then_return ([], errors.Wrap err "failed to get auth token") else
  try req from NewRequest "GET"
                 (client.RootURL cl +:+ "/customers/" +:+ ID cu +:+ "/documents") None
  on_err e return ([], errors.Wrap (Some e) "error creating the request") else
  let req := http.Add req "Authorization" ("Bearer " +:+ token) in
  let req := http.Add req "Accept" "application/vnd.dwolla.v1.hal+json" in
  r <- Do req ;;
  try res from r
  on_err e return ([], errors.Wrap (Some e) "failed to make request to dwolla api") else
  if http.StatusCode res =? 200 then
    let '(body, err) := json_Decode_listDocumentsResponse rt (http.Body res) in
    ret (default [] (listDocuments_Embedded body !! "documents"), None)
  else if http.StatusCode res =? 403 then
    ret ([], errors.New "not authorized to list customers")
  else if http.StatusCode res =? 404 then
    ret ([], errors.New "account not found")
  else
    ret ([], errors.New (http.Status res)).

(** [func GetDocument(c client.DwollaClient, docuemntID string)], returning
    a [*Document] and an [error] *)
Definition GetDocument (c : option client.DwollaClient) (docuemntID : string)
  : M (option Document * option error) :=
  cl <- deref c ;;
  let '(token, err) := client.AuthToken cl in
  if_err err then_return (None, errors.Wrap err "failed to get auth token") else
  try req from NewRequest "GET" (client.RootURL cl +:+ "/documents/" +:+ docuemntID) None
  on_err e return (None, errors.Wrap (Some e) "error creating the request") else
  let req := http.Add req "Authorization" ("Bearer " +:+ token) in
  let req := http.Add req "Accept" "application/vnd.dwolla.v1.hal+json" in
  r <- Do req ;;
  try res from r
  on_err e return (None, errors.Wrap (Some e) "failed to make request to dwolla api") else
  if http.StatusCode res =? 200 then
    let '(body, err) := json_Decode_Document rt (http.Body res) in
    ret (Some body, None)
  else if http.StatusCode res =? 403 then
    ret (None, errors.New "not authorized to retrieve the customer")
  else if http.StatusCode res =? 404 then
    ret (None, errors.New "account not found")
  else
    ret (None, errors.New (http.Status res)).

(** [func (cu *Customer) CreateFundingSource(f *funding.Resource) error] *)
Definition CreateFundingSource (cu : Customer) (f : funding.Resource)
  : M (option error) :=
  let c := Client cu in
  cl <- deref c ;;
  let '(token, err) := client.AuthToken cl in
  if_err err then_return (errors.Wrap err "failed to get auth token") else
  let '(body, err) := json_Marshal_Resource rt f in
  if_err err then_return (errors.Wrap err "error marshalling customer into req body") else
  try req from NewRequest "POST"
                 (client.RootURL cl +:+ "/customers/" +:+ ID cu +:+ "/funding-sources")
                 (Some body)
  on_err e return (errors.Wrap (Some e) "error creating the request") else
  let req := http.Add req "Authorization" ("Bearer " +:+ token) in
  let req := http.Add req "Accept" "application/vnd.dwolla.v1.hal+json" in
  let req := http.Add req "Content-Type" "application/vnd.dwolla.v1.hal+json" in
  r <- Do req ;;
  try res from r
  on_err e return (errors.Wrap (Some e) "failed to make request to dwolla api") else
  if http.StatusCode res =? 201 then
    ret None
  else if http.StatusCode res =? 403 then
    ret (errors.New "not authorized to create funding source")
  else if http.StatusCode res =? 400 then
    ret (errors.New "duplicate funding source or validation error. Authorization already associated to a funding source")
  else
    ret (errors.New (http.Status res)).

(** [func (cu *Customer) CreateFundingSourceToken() (string, error)] *)
Definition CreateFundingSourceToken (cu : Customer) : M (string * option error) :=
  let c := Client cu in
  cl <- deref c ;;
  let '(token, err) := client.AuthToken cl in
  if_err err then_return ("", errors.Wrap err "failed to get auth token") else
  try req from NewRequest "POST"
                 (client.RootURL cl +:+ "/customers/" +:+ ID cu +:+ "/funding-sources-token")
                 None
  on_err e return ("", errors.Wrap (Some e) "error creating the request") else
  let req := http.Add req "Authorization" ("Bearer " +:+ token) in
  let req := http.Add req "Accept" "application/vnd.dwolla.v1.hal+json" in
  let req := http.Add req "Content-Type" "application/vnd.dwolla.v1.hal+json" in
  r <- Do req ;;
  try res from r
  on_err e return ("", errors.Wrap (Some e) "failed to make request to dwolla api") else
  if http.StatusCode res =? 200 then
    let '(body, err) := json_Decode_createFudingSourceToken rt (http.Body res) in
    ret (Token body, None)
  else if http.StatusCode res =? 404 then
    ret ("", errors.New "customer not found")
  else
    ret ("", errors.New (http.Status res)).

(** [func (cu *Customer) CreateIAVFundingSourceToken() (string, error)] *)
Definition CreateIAVFundingSourceToken (cu : Customer) : M (string * option error) :=
  let c := Client cu in
  cl <- deref c ;;
  let '(token, err) := client.AuthToken cl in
  if_err err then_return ("", errors.Wrap err "failed to get auth token") else
  try req from NewRequest "POST"
                 (client.RootURL cl +:+ "/customers/" +:+ ID cu +:+ "/iav-token") None
  on_err e return ("", errors.Wrap (Some e) "error creating the request") else
  let req := http.Add req "Authorization" ("Bearer " +:+ token) in
  let req := http.Add req "Accept" "application/vnd.dwolla.v1.hal+json" in
  let req := http.Add req "Conetent-Type" "application/vnd.dwolla.v1.hal+json" in
  r <- Do req ;;
  try res from r
  on_err e return ("", errors.Wrap (Some e) "failed to make request to dwolla api") else
  if http.StatusCode res =? 200 then
    let '(body, err) := json_Decode_createFudingSourceToken rt (http.Body res) in
    ret (Token body, None)
  else if http.StatusCode res =? 404 then
    ret ("", errors.New "customer not found")
  else
    ret ("", errors.New (http.Status res)).

(** The body of the loop of [ListFundingSources]: a new [funding.Resource]
    built field by field from [s], with the customer's client, appended to
    [sources]. *)
Definition append_source (cu : Customer)
  (sources : list funding.Resource) (s : funding.Resource)
  : list funding.Resource :=
  let source :=
    {| funding.Client := Client cu;
       funding.ID := funding.ID s;
       funding.Status := funding.Status s;
       funding.AccountNumber := funding.AccountNumber s;
       funding.RoutingNumber := funding.RoutingNumber s;
       funding.BankAccountType := funding.BankAccountType s;
       funding.Name := funding.Name s;
       funding.BankName := funding.BankName s;
       funding.Type_ := funding.Type_ s;
       funding.CreatedAt := funding.CreatedAt s;
       funding.Removed := funding.Removed s;
       funding.PlaidToken := funding.PlaidToken s;
       funding.Channels := funding.Channels s;
       funding.Links := funding.Links s |} in
  sources ++ [source].

(** [func (cu *Customer) ListFundingSources() ([]funding.Resource, error)] *)
Definition ListFundingSources (cu : Customer)
  : M (list funding.Resource * option error) :=
  let c := Client cu in
  cl <- deref c ;;
  let '(token, err) := client.AuthToken cl in
  if_err err then_return ([], errors.Wrap err "failed to get auth token") else
  try req from NewRequest "GET"
                 (client.RootURL cl +:+ "/customers/" +:+ ID cu +:+ "/funding-sources")
                 None
  on_err e return ([], errors.Wrap (Some e) "error creating the request") else
  let req := http.Add req "Authorization" ("Bearer " +:+ token) in
  let req := http.Add req "Accept" "application/vnd.dwolla.v1.hal+json" in
  let req := http.Add req "Conetent-Type" "application/vnd.dwolla.v1.hal+json" in
  r <- Do req ;;
  try res from r
  on_err e return ([], errors.Wrap (Some e) "failed to make request to dwolla api") else
  if http.StatusCode res =? 200 then
    let '(body, err) := json_Decode_ListResourcesResponse rt (http.Body res) in
    let sources := [] in
    let sources :=
      fold_left (append_source cu)
        (default [] (funding.Embedded body !! "funding-sources")) sources in
    ret (sources, None)
  else if http.StatusCode res =? 403 then
    ret ([], errors.New "not authorized to list funding sources")
  else if http.StatusCode res =? 404 then
    ret ([], errors.New "customer not found")
  else
    ret ([], errors.New (http.Status res)).

(** [func (cu *Customer) ListTransfers() ([]transfer.Transfer, error)] *)
Definition ListTransfers (cu : Customer)
  : M (list transfer.Transfer * option error) :=
  let c := Client cu in
  cl <- deref c ;;
  let '(token, err) := client.AuthToken cl in
  if_err err then_return ([], errors.Wrap err "failed to get auth token") else
  try req from NewRequest "GET"
                 (client.Href (default client.zeroLink (Links cu !! "self"))
                  +:+ "/transfers") None
  on_err e return ([], errors.Wrap (Some e) "error creating the request") else
  let req := http.Add req "Authorization" ("Bearer " +:+ token) in
  let req := http.Add req "Accept" "application/vnd.dwolla.v1.hal+json" in
  r <- Do req ;;
  try res from r
  on_err e return ([], errors.Wrap (Some e) "failed to make request to dwolla api") else
  if http.StatusCode res =? 200 then
    let '(body, err) := json_Decode_ListTransferResponse rt (http.Body res) in
    ret (default [] (transfer.Embedded body !! "transfers"), None)
  else if http.StatusCode res =? 403 then
    ret ([], errors.New "not authorized to list transfers")
  else if http.StatusCode res =? 404 then
    ret ([], errors.New "customer not found")
  else
    ret ([], errors.New (http.Status res)).

(** *** The operations of the package, as one type

    A [Call] is an operation together with its arguments; [Value] collects
    the result types.  [run] performs the call and pairs the value with the
    error, so that a statement can range over the whole package. *)
Inductive Call : Type :=
| CallCreate (c : option client.DwollaClient) (cu : Customer)
| CallList (c : option client.DwollaClient)
| CallGetCustomer (c : option client.DwollaClient) (customerID : string)
| CallUpdate (cu : Customer)
| CallAddDocument (cu : Customer) (file : File) (documentType : string)
| CallListDocuments (cu : Customer)
| CallGetDocument (c : option client.DwollaClient) (docuemntID : string)
| CallCreateFundingSource (cu : Customer) (f : funding.Resource)
| CallCreateFundingSourceToken (cu : Customer)
| CallCreateIAVFundingSourceToken (cu : Customer)
| CallListFundingSources (cu : Customer)
| CallListTransfers (cu : Customer).

Inductive Value : Type :=
| VNone
| VString (s : string)
| VCustomers (l : list Customer)
| VCustomer (p : option Customer)
| VDocuments (l : list Document)
| VDocument (p : option Document)
| VResources (l : list funding.Resource)
| VTransfers (l : list transfer.Transfer).

Definition with_value {A} (inj : A -> Value) (m : M (A * option error))
  : M (Value * option error) :=
  r <- m ;; ret (inj (fst r), snd r).

Definition no_value (m : M (option error)) : M (Value * option error) :=
  e <- m ;; ret (VNone, e).

Definition run (call : Call) : M (Value * option error) :=
  match call with
  | CallCreate c cu => with_value VString (Create c cu)
  | CallList c => with_value VCustomers (List c)
  | CallGetCustomer c customerID => with_value VCustomer (GetCustomer c customerID)
  | CallUpdate cu => no_value (Update cu)
  | CallAddDocument cu file documentType =>
      no_value (AddDocument cu file documentType)
  | CallListDocuments cu => with_value VDocuments (ListDocuments cu)
  | CallGetDocument c docuemntID => with_value VDocument (GetDocument c docuemntID)
  | CallCreateFundingSource cu f => no_value (CreateFundingSource cu f)
  | CallCreateFundingSourceToken cu =>
      with_value VString (CreateFundingSourceToken cu)
  | CallCreateIAVFundingSourceToken cu =>
      with_value VString (CreateIAVFundingSourceToken cu)
  | CallListFundingSources cu => with_value VResources (ListFundingSources cu)
  | CallListTransfers cu => with_value VTransfers (ListTransfers cu)
  end.

(** Running [m] from [w] hands [req] to the HTTP client, and the transport
    answers it with the response [res]. *)
Definition answered {A} (m : M A) (w : World)
  (req : http.Request) (res : http.Response) : Prop :=
  hands_over m w req /\ http_Do rt req = inl res.

(** For the list operations, the number of entries the decoded envelope
    holds under the key the operation reads. *)
Definition envelope_entries (call : Call) (bytes : string) : option nat :=
  match call with
  | CallList _ =>
      let body := fst (json_Decode_listCustomersResponse rt bytes) in
      Some (length (default [] (listCustomers_Embedded body !! "customers")))
  | CallListDocuments _ =>
      let body := fst (json_Decode_listDocumentsResponse rt bytes) in
      Some (length (default [] (listDocuments_Embedded body !! "documents")))
  | CallListFundingSources _ =>
      let body := fst (json_Decode_ListResourcesResponse rt bytes) in
      Some (length (default [] (funding.Embedded body !! "funding-sources")))
  | CallListTransfers _ =>
      let body := fst (json_Decode_ListTransferResponse rt bytes) in
      Some (length (default [] (transfer.Embedded body !! "transfers")))
  | _ => None
  end.

(** The error [Decode] returns on the body, for the operations that decode
    the body without looking at the error. *)
Definition decode_error (call : Call) (bytes : string) : option (option error) :=
  match call with
  | CallList _ => Some (snd (json_Decode_listCustomersResponse rt bytes))
  | CallListDocuments _ => Some (snd (json_Decode_listDocumentsResponse rt bytes))
  | CallGetDocument _ _ => Some (snd (json_Decode_Document rt bytes))
  | CallCreateFundingSourceToken _ | CallCreateIAVFundingSourceToken _ =>
      Some (snd (json_Decode_createFudingSourceToken rt bytes))
  | CallListFundingSources _ =>
      Some (snd (json_Decode_ListResourcesResponse rt bytes))
  | CallListTransfers _ =>
      Some (snd (json_Decode_ListTransferResponse rt bytes))
  | _ => None
  end.

End Operations.

(** A sequence result with no elements. *)
Definition is_empty_sequence (v : Value) : bool :=
  match v with
  | VCustomers [] | VDocuments [] | VResources [] | VTransfers [] => true
  | _ => false
  end.

(** The zero value of a result type: what the operations return next to a
    non-nil error. *)
Definition is_zero_value (v : Value) : bool :=
  match v with
  | VNone | VString "" | VCustomers [] | VCustomer None | VDocuments []
  | VDocument None | VResources [] | VTransfers [] => true
  | _ => false
  end.

(** The client a call goes through: the argument [c], or the receiver's
    [Client] field. *)
Definition client_of (call : Call) : option client.DwollaClient :=
  match call with
  | CallCreate c _ | CallList c | CallGetCustomer c _ | CallGetDocument c _ => c
  | CallUpdate cu | CallAddDocument cu _ _ | CallListDocuments cu
  | CallCreateFundingSource cu _ | CallCreateFundingSourceToken cu
  | CallCreateIAVFundingSourceToken cu | CallListFundingSources cu
  | CallListTransfers cu => Client cu
  end.

End customer.

(** ** Package dwolla: the facade *)
Module dwolla.

Import go.

(** [type Client struct { client *client.Client }] *)
Record Client : Type := mkClient { client_ : option client.DwollaClient }.

Section Facade.

Variable rt : customer.Runtime.

(** [func (c *Client) CreateCustomer(cu *customer.Customer) error] is left
    out.  Its body, [return customer.Create(c.client, cu)], returns the two
    results of [customer.Create] from a function declared with the single
    result [error]: the function does not type-check against the customer
    package at hand and has no behaviour to embed. *)

(** [func (c *Client) ListCustomers() ([]customer.Customer, error)] *)
Definition ListCustomers (c : Client)
  : M (list customer.Customer * option error) :=
  customer.List rt (client_ c).

(** [func (c *Client) GetCustomer(customerID string)] *)
Definition GetCustomer (c : Client) (customerID : string)
  : M (option customer.Customer * option error) :=
  customer.GetCustomer rt (client_ c) customerID.

(** [func (c *Client) GetDocument(documentID string)] *)
Definition GetDocument (c : Client) (documentID : string)
  : M (option customer.Document * option error) :=
  customer.GetDocument rt (client_ c) documentID.

End Facade.

End dwolla.

(** ** The error taxonomy of the specification (section 7)

    400 is a validation error (duplicate resource or validation error), 403
    an authorization error (not authorized to do the operation), 404 a
    not-found error (the resource not found).  The code has one type of
    error, told apart by its message; [in_category] reads the category off
    the message. *)
Module taxonomy.

Inductive Category : Type :=
| ValidationError
| AuthorizationError
| NotFoundError.

Definition documented_category (code : Z) : option Category :=
  if code =? 400 then Some ValidationError
  else if code =? 403 then Some AuthorizationError
  else if code =? 404 then Some NotFoundError
  else None.

Definition in_category (cat : Category) (e : error) : bool :=
  let msg := errors.Error e in
  match cat with
  | ValidationError => gostrings.Contains msg "validation error"
  | AuthorizationError => gostrings.HasPrefix msg "not authorized to "
  | NotFoundError => gostrings.HasSuffix msg " not found"
  end.

(** The status codes an operation's [switch] has a [case] for, besides
    the success code, read off customer.go. *)
Definition error_cases (call : customer.Call) : list Z :=
  match call with
  | customer.CallCreate _ _ => [403; 400; 404]
  | customer.CallCreateFundingSource _ _ => [403; 400]
  | customer.CallCreateFundingSourceToken _
  | customer.CallCreateIAVFundingSourceToken _ => [404]
  | _ => [403; 404]
  end.

(** The status code of an operation's success case. *)
Definition success_code (call : customer.Call) : Z :=
  match call with
  | customer.CallCreate _ _ | customer.CallAddDocument _ _ _
  | customer.CallCreateFundingSource _ _ => 201
  | _ => 200
  end.

(** The reading of an error status that the specification gives for
    every operation: a non-nil error of the category documented for the
    code. *)
Definition error_status_documented (rt : customer.Runtime)
  (call : customer.Call) (w : go.World) (code : Z) : Prop :=
  exists v e w' cat,
    customer.run rt call w = go.Ret (v, Some e) w'
    /\ documented_category code = Some cat
    /\ in_category cat e = true.

End taxonomy.

(** ** The content type of a request

    The value the request of an operation carries under the header name
    Content-Type, read off the calls of [req.Header.Add]: the vendor media
    type for [Create], [Update], [CreateFundingSource] and
    [CreateFundingSourceToken], a multipart form for [AddDocument], and no
    header of that name for the other operations. *)
Definition content_type_header (call : customer.Call) : option string :=
  match call with
  | customer.CallCreate _ _ | customer.CallUpdate _
  | customer.CallCreateFundingSource _ _
  | customer.CallCreateFundingSourceToken _ => Some customer.halJSON
  | customer.CallAddDocument _ _ _ =>
      Some "multipart/form-data; boundary=----WebKitFormBoundary7MA4YWxkTrZu0gW"
  | _ => None
  end.

(** ** Concrete runs

    A client for the root URL of the specification's scenarios, and a
    runtime whose transport answers every request with one fixed response
    (or fails), whose encoders succeed and whose decoders know two bodies. *)
Module scenario.

Import customer.

Definition root : string := "https://api-sandbox.example.com".

Definition cl : client.DwollaClient :=
  {| client.AuthToken := ("secret-token", None); client.RootURL := root |}.

Definition zeroCustomer : Customer :=
  {| Client := None; ID := ""; FirstName := ""; LastName := ""; Email := "";
     Type_ := ""; Status := ""; BusinessName := ""; IPAddress := "";
     CreatedAt := ""; DateOfBirth := ""; SSN := ""; State := "";
     PostalCode := ""; City := ""; Address := ""; Passport := "";
     Links := ∅ |}.

Definition zeroDocument : Document :=
  {| Document_Client := None; Document_Links := ∅; Document_ID := "";
     Document_Status := ""; Document_Type := ""; Document_CreatedAt := "" |}.

Definition zeroResource : funding.Resource :=
  {| funding.Client := None; funding.ID := ""; funding.Status := "";
     funding.AccountNumber := ""; funding.RoutingNumber := "";
     funding.BankAccountType := ""; funding.Name := ""; funding.BankName := "";
     funding.Type_ := ""; funding.CreatedAt := ""; funding.Removed := false;
     funding.PlaidToken := ""; funding.Channels := []; funding.Links := ∅ |}.

(** A customer obtained through [cl], with the given identifier. *)
Definition customer_with_id (id : string) : Customer :=
  {| Client := Some cl; ID := id; FirstName := "Jane"; LastName := "Doe";
     Email := "jane@example.com"; Type_ := "personal"; Status := "unverified";
     BusinessName := ""; IPAddress := ""; CreatedAt := ""; DateOfBirth := "";
     SSN := ""; State := ""; PostalCode := ""; City := ""; Address := "";
     Passport := ""; Links := ∅ |}.

(** As the decoder delivers it: every field read from the JSON object, and
    no client, which is not part of the vendor's JSON. *)
Definition decoded_customer (id : string) : Customer :=
  set_Client (customer_with_id id) None.

Definition dq : string := String "034"%char EmptyString.

(** The body [{ _embedded : { funding-sources : [] } }] of the
    specification's scenario, with its double quotes. *)
Definition empty_funding_sources_body : string :=
  "{" +:+ dq +:+ "_embedded" +:+ dq +:+ ":{" +:+ dq +:+ "funding-sources"
  +:+ dq +:+ ":[]}}".

(** A body with one customer, [abc-123], under the key [customers]. *)
Definition one_customer_body : string :=
  "{" +:+ dq +:+ "_embedded" +:+ dq +:+ ":{" +:+ dq +:+ "customers" +:+ dq
  +:+ ":[{" +:+ dq +:+ "id" +:+ dq +:+ ":" +:+ dq +:+ "abc-123" +:+ dq
  +:+ "}]}}".

Definition syntax_error : option error :=
  errors.New "invalid character '<' looking for beginning of value".

Definition file : File :=
  {| File_Name := "passport.png"; File_bytes := "PNG" |}.

Definition runtime (respond : http.Request -> http.Response + error) : Runtime :=
  {| http_NewRequest_err := fun _ _ => None;
     http_Do := respond;
     json_Marshal_Customer := fun cu => ("{}", None);
     json_Marshal_Resource := fun f => ("{}", None);
     json_Decode_listCustomersResponse := fun bytes =>
       if String.eqb bytes one_customer_body
       then ({| listCustomers_Links := ∅;
                listCustomers_Embedded :=
                  {[ "customers" := [decoded_customer "abc-123"] ]} |}, None)
       else ({| listCustomers_Links := ∅; listCustomers_Embedded := ∅ |},
             syntax_error);
     json_Decode_Customer := fun bytes => (zeroCustomer, syntax_error);
     json_Decode_listDocumentsResponse := fun bytes =>
       ({| listDocuments_Links := ∅; listDocuments_Embedded := ∅ |},
        syntax_error);
     json_Decode_Document := fun bytes => (zeroDocument, syntax_error);
     json_Decode_createFudingSourceToken := fun bytes =>
       ({| Token := ""; Token_Links := ∅ |}, syntax_error);
     json_Decode_ListResourcesResponse := fun bytes =>
       if String.eqb bytes empty_funding_sources_body
       then ({| funding.ListLinks := ∅;
                funding.Embedded := {[ "funding-sources" := [] ]} |}, None)
       else ({| funding.ListLinks := ∅; funding.Embedded := ∅ |}, syntax_error);
     json_Decode_ListTransferResponse := fun bytes =>
       ({| transfer.ListLinks := ∅; transfer.Embedded := ∅ |}, syntax_error);
     multipart_CreateFormFile := fun field name buf =>
       (buf +:+ "--part " +:+ field +:+ " " +:+ name +:+ " ", None);
     io_Copy_file := fun f buf => (buf +:+ File_bytes f, None);
     multipart_WriteField := fun field value buf =>
       (buf +:+ " --part " +:+ field +:+ " " +:+ value, None);
     multipart_Close := fun buf => buf +:+ " --end" |}.

(** A response with the given status, [Location] header and body. *)
Definition response (code : Z) (status location body : string) : http.Response :=
  {| http.Status := status; http.StatusCode := code;
     http.RespHeader := {[ "Location" := [location] ]};
     http.Body := body |}.

Definition answering (res : http.Response) : Runtime :=
  runtime (fun _ => inl res).

Definition w0 : go.World := {| go.sent := []; go.stdout := "" |}.

(** The request that running [m] from [w0] hands to the HTTP client last. *)
Definition the_request {A} (m : go.M A) : http.Request :=
  List.last (go.sent (go.final_world (m w0)))
    {| http.Method := ""; http.URL := ""; http.ReqHeader := ∅;
       http.ReqBody := None |}.

End scenario.

(** ** The request of each operation

    The method, the path below the root URL and the body of the request an
    operation builds, read off the calls of [http.NewRequest] in
    customer.go.  [ListTransfers] has no path below the root URL: its URL
    comes from the customer's links. *)
Module table.

Definition method (call : customer.Call) : string :=
  match call with
  | customer.CallList _ | customer.CallGetCustomer _ _
  | customer.CallListDocuments _ | customer.CallGetDocument _ _
  | customer.CallListFundingSources _ | customer.CallListTransfers _ => "GET"
  | _ => "POST"
  end.

Definition path (call : customer.Call) : option string :=
  match call with
  | customer.CallCreate _ _ | customer.CallList _ => Some "/customers"
  | customer.CallGetCustomer _ customerID =>
      Some ("/customers/" +:+ customerID)
  | customer.CallUpdate cu => Some ("/customers/" +:+ customer.ID cu)
  | customer.CallAddDocument cu _ _ =>
      Some ("/customers/+" +:+ customer.ID cu +:+ "/documents")
  | customer.CallListDocuments cu =>
      Some ("/customers/" +:+ customer.ID cu +:+ "/documents")
  | customer.CallGetDocument _ docuemntID =>
      Some ("/documents/" +:+ docuemntID)
  | customer.CallCreateFundingSource cu _
  | customer.CallListFundingSources cu =>
      Some ("/customers/" +:+ customer.ID cu +:+ "/funding-sources")
  | customer.CallCreateFundingSourceToken cu =>
      Some ("/customers/" +:+ customer.ID cu +:+ "/funding-sources-token")
  | customer.CallCreateIAVFundingSourceToken cu =>
      Some ("/customers/" +:+ customer.ID cu +:+ "/iav-token")
  | customer.CallListTransfers _ => None
  end.

Definition body (rt : customer.Runtime) (call : customer.Call)
  : option string :=
  match call with
  | customer.CallCreate _ cu | customer.CallUpdate cu =>
      Some (fst (customer.json_Marshal_Customer rt cu))
  | customer.CallCreateFundingSource _ f =>
      Some (fst (customer.json_Marshal_Resource rt f))
  | customer.CallAddDocument _ file documentType =>
      let b := fst (customer.multipart_CreateFormFile rt "file"
                      (customer.File_Name file) "") in
      let b := fst (customer.io_Copy_file rt file b) in
      let b := fst (customer.multipart_WriteField rt "documentType"
                      documentType b) in
      Some (customer.multipart_Close rt b)
  | _ => None
  end.

(** The messages the operations wrap an error in before a request is
    sent. *)
Definition stage_messages : list string :=
  [ "failed to get auth token";
    "error marshalling customer into req body";
    "error uploading file";
    "error creating the request" ].

(** The operations that are methods of [*Customer]. *)
Definition receiver (call : customer.Call) : option customer.Customer :=
  match call with
  | customer.CallUpdate cu | customer.CallAddDocument cu _ _
  | customer.CallListDocuments cu | customer.CallCreateFundingSource cu _
  | customer.CallCreateFundingSourceToken cu
  | customer.CallCreateIAVFundingSourceToken cu
  | customer.CallListFundingSources cu | customer.CallListTransfers cu =>
      Some cu
  | _ => None
  end.

(** What [Decode] leaves in the target, as the value five of the
    operations return it: the documents or transfers under the key, the
    document, the token. *)
Definition decoded_value (rt : customer.Runtime) (call : customer.Call)
  (bytes : string) : option customer.Value :=
  match call with
  | customer.CallListDocuments _ =>
      let body := fst (customer.json_Decode_listDocumentsResponse rt bytes) in
      Some (customer.VDocuments
              (default [] (customer.listDocuments_Embedded body !! "documents")))
  | customer.CallGetDocument _ _ =>
      Some (customer.VDocument
              (Some (fst (customer.json_Decode_Document rt bytes))))
  | customer.CallCreateFundingSourceToken _
  | customer.CallCreateIAVFundingSourceToken _ =>
      Some (customer.VString
              (customer.Token
                 (fst (customer.json_Decode_createFudingSourceToken rt bytes))))
  | customer.CallListTransfers _ =>
      let body := fst (customer.json_Decode_ListTransferResponse rt bytes) in
      Some (customer.VTransfers
              (default [] (transfer.Embedded body !! "transfers")))
  | _ => None
  end.

(** A funding source as [ListFundingSources] hands it out, seen from the
    one the decoder delivered: the customer's client, every other field the
    same. *)
Definition copied_from (cu : customer.Customer)
  (out s : funding.Resource) : Prop :=
  funding.Client out = customer.Client cu
  /\ funding.ID out = funding.ID s
  /\ funding.Status out = funding.Status s
  /\ funding.AccountNumber out = funding.AccountNumber s
  /\ funding.RoutingNumber out = funding.RoutingNumber s
  /\ funding.BankAccountType out = funding.BankAccountType s
  /\ funding.Name out = funding.Name s
  /\ funding.BankName out = funding.BankName s
  /\ funding.Type_ out = funding.Type_ s
  /\ funding.CreatedAt out = funding.CreatedAt s
  /\ funding.Removed out = funding.Removed s
  /\ funding.PlaidToken out = funding.PlaidToken s
  /\ funding.Channels out = funding.Channels s
  /\ funding.Links out = funding.Links s.

End table.

(** ** More concrete runs

    A client whose token cannot be had, and a runtime whose decoders
    succeed: a customer with a self link, one funding source, one document,
    one transfer, a token. *)
Module fixtures.

Import customer.

Definition no_token : client.DwollaClient :=
  {| client.AuthToken := ("", errors.New "invalid_client");
     client.RootURL := scenario.root |}.

Definition self_link : client.Link :=
  {| client.Href := "https://api-sandbox.example.com/customers/abc-123" |}.

(** The customer abc-123 as decoded from the vendor's JSON. *)
Definition decoded : Customer :=
  {| Client := None; ID := "abc-123"; FirstName := "Jane"; LastName := "Doe";
     Email := "jane@example.com"; Type_ := "personal"; Status := "verified";
     BusinessName := ""; IPAddress := ""; CreatedAt := "2019-01-01";
     DateOfBirth := ""; SSN := ""; State := "NY"; PostalCode := "10001";
     City := "New York"; Address := ""; Passport := "";
     Links := {[ "self" := self_link ]} |}.

Definition bank : funding.Resource :=
  {| funding.Client := None; funding.ID := "fs-1";
     funding.Status := "verified"; funding.AccountNumber := "";
     funding.RoutingNumber := ""; funding.BankAccountType := "checking";
     funding.Name := "Checking"; funding.BankName := "First Bank";
     funding.Type_ := "bank"; funding.CreatedAt := "2019-01-02";
     funding.Removed := false; funding.PlaidToken := "";
     funding.Channels := ["ach"]; funding.Links := ∅ |}.

Definition document : Document :=
  {| Document_Client := None; Document_Links := ∅; Document_ID := "doc-1";
     Document_Status := "pending"; Document_Type := "passport";
     Document_CreatedAt := "2019-01-03" |}.

Definition a_transfer : transfer.Transfer :=
  {| transfer.ID := "tr-1"; transfer.Status := "pending";
     transfer.Amount := "10.00"; transfer.Links := ∅ |}.

(** [refuse] is what [http.NewRequest] answers to every method and URL. *)
Definition runtime (refuse : option error)
  (respond : http.Request -> http.Response + error) : Runtime :=
  {| http_NewRequest_err := fun _ _ => refuse;
     http_Do := respond;
     json_Marshal_Customer := fun cu => ("{customer " +:+ ID cu +:+ "}", None);
     json_Marshal_Resource := fun f => ("{resource " +:+ funding.ID f +:+ "}", None);
     json_Decode_listCustomersResponse := fun bytes =>
       ({| listCustomers_Links := ∅;
           listCustomers_Embedded := {[ "customers" := [decoded] ]} |}, None);
     json_Decode_Customer := fun bytes => (decoded, None);
     json_Decode_listDocumentsResponse := fun bytes =>
       ({| listDocuments_Links := ∅;
           listDocuments_Embedded := {[ "documents" := [document] ]} |}, None);
     json_Decode_Document := fun bytes => (document, None);
     json_Decode_createFudingSourceToken := fun bytes =>
       ({| Token := "tok-1"; Token_Links := ∅ |}, None);
     json_Decode_ListResourcesResponse := fun bytes =>
       ({| funding.ListLinks := ∅;
           funding.Embedded := {[ "funding-sources" := [bank] ]} |}, None);
     json_Decode_ListTransferResponse := fun bytes =>
       ({| transfer.ListLinks := ∅;
           transfer.Embedded := {[ "transfers" := [a_transfer] ]} |}, None);
     multipart_CreateFormFile := fun field name buf =>
       (buf +:+ "--part " +:+ field +:+ " " +:+ name +:+ " ", None);
     io_Copy_file := fun f buf => (buf +:+ File_bytes f, None);
     multipart_WriteField := fun field value buf =>
       (buf +:+ " --part " +:+ field +:+ " " +:+ value, None);
     multipart_Close := fun buf => buf +:+ " --end" |}.

(** A response with the given status and no [Location] header. *)
Definition response (code : Z) (status body : string) : http.Response :=
  {| http.Status := status; http.StatusCode := code;
     http.RespHeader := ∅; http.Body := body |}.

Definition answering (res : http.Response) : Runtime :=
  runtime None (fun _ => inl res).

Definition unreachable : error :=
  errors.fundamental "dial tcp: connection refused".

End fixtures.

(** * Properties *)

(** ** Strings *)

Lemma length_append (p x : string) :
  String.length (p +:+ x) = (String.length p + String.length x)%nat.
Proof. induction p as [|a p IH]; simpl; [done | by rewrite IH]. Qed.

Lemma substring_prefix_app (p x : string) :
  String.substring 0 (String.length p) (p +:+ x) = p.
Proof. induction p as [|a p IH]; simpl; [by destruct x | by rewrite IH]. Qed.

Lemma substring_skip_app (p x : string) (n : nat) :
  String.substring (String.length p) n (p +:+ x) = String.substring 0 n x.
Proof. induction p as [|a p IH]; simpl; [done | apply IH]. Qed.

Lemma substring_all (x : string) :
  String.substring 0 (String.length x) x = x.
Proof. induction x as [|a x IH]; simpl; [done | by rewrite IH]. Qed.

Lemma HasPrefix_app (p x : string) : gostrings.HasPrefix (p +:+ x) p = true.
Proof.
  unfold gostrings.HasPrefix.
  rewrite substring_prefix_app, String.eqb_refl, length_append, andb_true_r.
  apply Nat.leb_le. lia.
Qed.

(** Trimming a prefix that is there leaves what follows it. *)
Lemma TrimPrefix_app (p x : string) : gostrings.TrimPrefix (p +:+ x) p = x.
Proof.
  unfold gostrings.TrimPrefix.
  rewrite HasPrefix_app, substring_skip_app, length_append.
  replace (String.length p + String.length x - String.length p)%nat
    with (String.length x) by lia.
  apply substring_all.
Qed.

(** A string that does not start with the prefix is left as it is. *)
Lemma TrimPrefix_no_prefix (s p : string) :
  gostrings.HasPrefix s p = false -> gostrings.TrimPrefix s p = s.
Proof. unfold gostrings.TrimPrefix. by intros ->. Qed.

(** ** Running an operation *)

Lemma no_request {A} (l : list A) (x : A) : l = l ++ [x] -> False.
Proof.
  intros H. apply (f_equal length) in H.
  rewrite length_app in H. simpl in H. lia.
Qed.

Ltac go_unfold :=
  cbv beta iota zeta delta
    [customer.answered go.hands_over go.bind go.ret go.deref go.panic
     go.log_request go.copy_to_stdout customer.Do customer.NewRequest
     customer.with_value customer.no_value customer.run
     customer.Create customer.List customer.GetCustomer customer.Update
     customer.AddDocument customer.ListDocuments customer.GetDocument
     customer.CreateFundingSource customer.CreateFundingSourceToken
     customer.CreateIAVFundingSourceToken customer.ListFundingSources
     customer.ListTransfers] in *.

(** The scrutinee that the computation is waiting for. *)
Ltac innermost x :=
  lazymatch x with
  | context [match ?y with _ => _ end] => innermost y
  | _ => x
  end.

(** One step of a run whose log is known: a branch that sent nothing is
    closed, a branch that sent a request identifies it. *)
Ltac go_step :=
  match goal with
  | H : ?l = ?l ++ [_] |- _ => exfalso; exact (no_request _ _ H)
  | H : ?l ++ [_] = ?l ++ [_] |- _ =>
      apply app_inj_tail in H; destruct H as [_ H]; subst
  | H : context [match ?x with _ => _ end] |- _ =>
      let y := innermost x in
      destruct y eqn:?; cbn [go.final_world go.sent go.stdout fst snd] in *
  end.

(** The transport is a function: one request, one answer. *)
Ltac go_same_response :=
  match goal with
  | H1 : customer.http_Do ?rt ?q = inl ?r1,
    H2 : customer.http_Do ?rt ?q = inl ?r2 |- _ =>
      assert (r1 = r2) by congruence; subst r1; clear H1
  | H1 : customer.http_Do ?rt ?q = inr _,
    H2 : customer.http_Do ?rt ?q = inl _ |- _ => congruence
  end.

Ltac go_run := go_unfold; repeat go_step; go_same_response.

(** One step of a run read off the goal. *)
Ltac go_case :=
  match goal with
  | |- context [match ?x with _ => _ end] =>
      let y := innermost x in
      destruct y eqn:?; cbn [go.final_world go.sent go.stdout fst snd] in *
  end.

(** One step of a run read off a hypothesis. *)
Ltac go_case_in H :=
  match type of H with
  | context [match ?x with _ => _ end] =>
      let y := innermost x in
      destruct y eqn:?; cbn [go.final_world go.sent go.stdout fst snd] in *
  end.

(** One request, one answer, whatever the answer. *)
Ltac go_same_answer :=
  match goal with
  | H1 : customer.http_Do ?rt ?q = _, H2 : customer.http_Do ?rt ?q = _ |- _ =>
      rewrite H1 in H2; simplify_eq
  end.

(** ** Create *)

(** C1. When the POST of [Create] is answered with status 201, [Create]
    returns, with a nil error, the [Location] header of the response with
    the prefix rootURL + "/customers/" trimmed off; for a [Location] that is
    this prefix followed by an id, the result is the id. *)
Theorem Create_201_returns_id rt c cu w req res :
  customer.answered rt (customer.Create rt c cu) w req res ->
  http.StatusCode res = 201 ->
  exists cl w',
    c = Some cl
    /\ customer.Create rt c cu w
       = go.Ret (gostrings.TrimPrefix
                   (http.Header_Get (http.RespHeader res) "Location")
                   (client.RootURL cl +:+ "/customers/"), None) w'
    /\ forall id,
         http.Header_Get (http.RespHeader res) "Location"
         = (client.RootURL cl +:+ "/customers/") +:+ id ->
         customer.Create rt c cu w = go.Ret (id, None) w'.
Proof.
  intros [Hsent Hdo] Hcode. go_run.
  all: rewrite ?Hcode in *; try discriminate.
  eexists _, _. split; [done|]. split; [done|].
  intros id ->. by rewrite TrimPrefix_app.
Qed.

(** The scenario of the specification: root
    https://api-sandbox.example.com, status 201, Location
    https://api-sandbox.example.com/customers/abc-123. *)
Lemma Create_201_scenario :
  let res := scenario.response 201 "201 Created"
               "https://api-sandbox.example.com/customers/abc-123" "" in
  let rt := scenario.answering res in
  exists req w',
    customer.answered rt
      (customer.Create rt (Some scenario.cl) (scenario.customer_with_id ""))
      scenario.w0 req res
    /\ http.URL req = "https://api-sandbox.example.com/customers"
    /\ customer.Create rt (Some scenario.cl) (scenario.customer_with_id "")
         scenario.w0
       = go.Ret ("abc-123", None) w'.
Proof.
  intros res rt.
  assert (Hans : customer.answered rt
            (customer.Create rt (Some scenario.cl) (scenario.customer_with_id ""))
            scenario.w0
            (scenario.the_request
               (customer.Create rt (Some scenario.cl) (scenario.customer_with_id "")))
            res).
  { split; vm_compute; reflexivity. }
  destruct (Create_201_returns_id _ _ _ _ _ _ Hans eq_refl)
    as (cl & w' & Hcl & _ & Hid).
  eexists _, w'. split; [exact Hans|]. split; [vm_compute; reflexivity|].
  apply Hid. injection Hcl as <-. vm_compute. reflexivity.
Defined.

(** ** Status codes 400, 403 and 404 *)

(** A run in which the error is not of the category documented for the
    code: [GetCustomer] has no case for 400 and returns the status text of
    the response, which is no validation error. *)
Lemma GetCustomer_400_is_status_text :
  let res := scenario.response 400 "400 Bad Request" "" "" in
  let rt := scenario.answering res in
  let call := customer.CallGetCustomer (Some scenario.cl) "xyz" in
  customer.answered rt (customer.run rt call) scenario.w0
    (scenario.the_request (customer.run rt call)) res
  /\ In (http.StatusCode res) [400; 403; 404]
  /\ (exists w',
        customer.run rt call scenario.w0
        = go.Ret (customer.VCustomer None,
                  Some (errors.fundamental "400 Bad Request")) w')
  /\ ~ taxonomy.error_status_documented rt call scenario.w0
        (http.StatusCode res).
Proof.
  intros res rt call.
  split; [split; vm_compute; reflexivity|].
  split; [vm_compute; tauto|].
  split; [eexists; vm_compute; reflexivity|].
  intros (v & e & w' & cat & Hrun & Hcat & Hin).
  vm_compute in Hrun; injection Hrun as <- <- <-.
  vm_compute in Hcat; injection Hcat as <-.
  vm_compute in Hin; discriminate.
Qed.

Ltac go_codes :=
  repeat match goal with
  | H : (_ =? _) = true |- _ => apply Z.eqb_eq in H
  | H : (_ =? _) = false |- _ => apply Z.eqb_neq in H
  end.

(** When an operation of the package is answered
    with status 400, 403 or 404, it returns the zero value and a non-nil
    error.  If the operation's switch has a case for the code, the error is
    of the category documented for the code.  An operation whose switch has
    no case for 400 returns for it an error that carries the status text of
    the response. *)
Theorem error_status_never_success rt call w req res :
  customer.answered rt (customer.run rt call) w req res ->
  In (http.StatusCode res) [400; 403; 404] ->
  exists v e w',
    customer.run rt call w = go.Ret (v, Some e) w'
    /\ customer.is_zero_value v = true
    /\ (In (http.StatusCode res) (taxonomy.error_cases call) ->
        exists cat,
          taxonomy.documented_category (http.StatusCode res) = Some cat
          /\ taxonomy.in_category cat e = true)
    /\ (http.StatusCode res = 400 -> ~ In 400 (taxonomy.error_cases call) ->
        e = errors.fundamental (http.Status res)).
Proof.
  intros [Hsent Hdo] Hcode.
  destruct call; go_run; go_codes.
  all: cbn [In taxonomy.error_cases] in *.
  all: try lia.
  all: eexists _, _, _; split; [reflexivity|]; split; [reflexivity|].
  all: split; [intros Hin | intros H400 Hnot]; try (exfalso; lia).
  all: try reflexivity.
  all: match goal with
       | H : http.StatusCode _ = _ |- _ => rewrite H
       end.
  all: eexists; split; vm_compute; reflexivity.
Qed.

(** The scenario of the specification: GET /customers/xyz answered with
    403. *)
Lemma error_status_scenarios :
  let res := scenario.response 403 "403 Forbidden" "" "" in
  let rt := scenario.answering res in
  let call := customer.CallGetCustomer (Some scenario.cl) "xyz" in
  customer.answered rt (customer.run rt call) scenario.w0
    (scenario.the_request (customer.run rt call)) res
  /\ In (http.StatusCode res) [400; 403; 404]
  /\ exists w',
       customer.run rt call scenario.w0
       = go.Ret (customer.VCustomer None,
                 Some (errors.fundamental "not authorized to retrieve the customer"))
           w'.
Proof.
  intros res rt call.
  assert (Hans : customer.answered rt (customer.run rt call) scenario.w0
                   (scenario.the_request (customer.run rt call)) res)
    by (split; vm_compute; reflexivity).
  assert (Hin : In (http.StatusCode res) [400; 403; 404])
    by (simpl; lia).
  split; [exact Hans|]. split; [exact Hin|].
  destruct (error_status_never_success rt call scenario.w0 _ res Hans Hin)
    as (v & e & w' & Hrun & _).
  exists w'. rewrite Hrun. vm_compute in Hrun.
  injection Hrun as <- <- _. reflexivity.
Defined.

(** C2.  Three switches have a case missing that their siblings have:
    [CreateFundingSourceToken] and [CreateIAVFundingSourceToken] answered
    with 403, and [CreateFundingSource] answered with 404, take the default
    case and return, with the zero value, an error that carries the status
    text of the response. *)
Theorem named_operations_missing_case rt call w req res :
  customer.answered rt (customer.run rt call) w req res ->
  ((exists cu, call = customer.CallCreateFundingSourceToken cu
               \/ call = customer.CallCreateIAVFundingSourceToken cu)
   /\ http.StatusCode res = 403)
  \/ ((exists cu f, call = customer.CallCreateFundingSource cu f)
      /\ http.StatusCode res = 404) ->
  exists v w',
    customer.run rt call w
    = go.Ret (v, Some (errors.fundamental (http.Status res))) w'
    /\ customer.is_zero_value v = true.
Proof.
  intros [Hsent Hdo] [[[cu [-> | ->]] Hcode] | [(cu & f & ->) Hcode]].
  all: go_run.
  all: rewrite ?Hcode in *; try discriminate.
  all: eexists _, _; split; reflexivity.
Qed.

(** [CreateFundingSourceToken] answered with 403 Forbidden: the error is
    the status text, which is no authorization error. *)
Lemma CreateFundingSourceToken_403_scenario :
  let res := scenario.response 403 "403 Forbidden" "" "" in
  let rt := scenario.answering res in
  let call := customer.CallCreateFundingSourceToken
                (scenario.customer_with_id "xyz") in
  customer.answered rt (customer.run rt call) scenario.w0
    (scenario.the_request (customer.run rt call)) res
  /\ taxonomy.documented_category (http.StatusCode res)
     = Some taxonomy.AuthorizationError
  /\ exists w',
       customer.run rt call scenario.w0
       = go.Ret (customer.VString "",
                 Some (errors.fundamental "403 Forbidden")) w'
       /\ taxonomy.in_category taxonomy.AuthorizationError
            (errors.fundamental "403 Forbidden") = false.
Proof.
  intros res rt call.
  assert (Hans : customer.answered rt (customer.run rt call) scenario.w0
                   (scenario.the_request (customer.run rt call)) res)
    by (split; vm_compute; reflexivity).
  split; [exact Hans|]. split; [reflexivity|].
  destruct (named_operations_missing_case rt call scenario.w0 _ res Hans)
    as (v & w' & Hrun & _).
  { left. split; [|reflexivity]. eexists. left. reflexivity. }
  exists w'. split; [|vm_compute; reflexivity].
  rewrite Hrun. vm_compute in Hrun. injection Hrun as <- _. reflexivity.
Defined.

(** X8.  Any status code that is neither the success code nor one of the listed
    cases takes the default case: the zero value and an error carrying the
    status text. *)
Lemma default_case_status_text rt call w req res :
  customer.answered rt (customer.run rt call) w req res ->
  http.StatusCode res <> taxonomy.success_code call ->
  ~ In (http.StatusCode res) (taxonomy.error_cases call) ->
  exists v w',
    customer.run rt call w
    = go.Ret (v, Some (errors.fundamental (http.Status res))) w'
    /\ customer.is_zero_value v = true.
Proof.
  intros [Hsent Hdo] Hok Hcase.
  destruct call; go_run; go_codes.
  all: cbn [In taxonomy.error_cases taxonomy.success_code] in *.
  all: try (exfalso; lia).
  all: eexists _, _; split; reflexivity.
Qed.

(** ** Decoding the body *)

(** C3.  The seven operations that decode the body without reading the
    error of [Decode] return a nil error for a 200 response whatever the
    decoder says: a body that fails to decode yields a success, not an
    error wrapping the failure. *)
Theorem decode_error_dropped rt call w req res derr :
  customer.answered rt (customer.run rt call) w req res ->
  http.StatusCode res = 200 ->
  customer.decode_error rt call (http.Body res) = Some (Some derr) ->
  exists v w', customer.run rt call w = go.Ret (v, None) w'.
Proof.
  intros [Hsent Hdo] Hcode Hdec.
  destruct call; try discriminate Hdec; go_run.
  all: rewrite ?Hcode in *; try discriminate.
  all: eexists _, _; reflexivity.
Qed.

(** [List] answered with 200 and a body that is no JSON: the decoder
    reports a syntax error, [List] returns no customers and no error. *)
Lemma List_decode_error_dropped :
  let res := scenario.response 200 "200 OK" "" "<html>" in
  let rt := scenario.answering res in
  let call := customer.CallList (Some scenario.cl) in
  customer.answered rt (customer.run rt call) scenario.w0
    (scenario.the_request (customer.run rt call)) res
  /\ http.StatusCode res = 200
  /\ customer.decode_error rt call (http.Body res)
     = Some (errors.New "invalid character '<' looking for beginning of value")
  /\ exists v w', customer.run rt call scenario.w0 = go.Ret (v, None) w'.
Proof.
  intros res rt call.
  assert (Hans : customer.answered rt (customer.run rt call) scenario.w0
                   (scenario.the_request (customer.run rt call)) res)
    by (split; vm_compute; reflexivity).
  split; [exact Hans|]. split; [reflexivity|]. split; [reflexivity|].
  exact (decode_error_dropped rt call scenario.w0 _ res _ Hans eq_refl eq_refl).
Defined.

(** X12.  [GetCustomer] is the one operation that reads the error of
    [Decode]: it returns it wrapped in "error parsing JSON response", with
    no customer. *)
Lemma GetCustomer_decode_error_wrapped rt c customerID w req res body derr :
  customer.answered rt (customer.GetCustomer rt c customerID) w req res ->
  http.StatusCode res = 200 ->
  customer.json_Decode_Customer rt (http.Body res) = (body, Some derr) ->
  exists w',
    customer.GetCustomer rt c customerID w
    = go.Ret (None, Some (errors.withMessage derr "error parsing JSON response")) w'.
Proof.
  intros [Hsent Hdo] Hcode Hdec. go_run.
  all: rewrite ?Hcode in *; try discriminate.
  all: revert Hdec;
       match goal with
       | H : customer.json_Decode_Customer _ _ = _ |- _ => rewrite H
       end; intros ?; simplify_eq.
  eexists; reflexivity.
Qed.

(** ** Empty envelopes *)

(** C4.  A list operation answered with 200, whose decoded envelope holds
    no entry under the key the operation reads, returns an empty sequence
    and a nil error. *)
Theorem list_empty_envelope rt call w req res :
  customer.answered rt (customer.run rt call) w req res ->
  http.StatusCode res = 200 ->
  customer.envelope_entries rt call (http.Body res) = Some 0%nat ->
  exists v w',
    customer.run rt call w = go.Ret (v, None) w'
    /\ customer.is_empty_sequence v = true.
Proof.
  intros [Hsent Hdo] Hcode Hlen.
  destruct call; try discriminate Hlen; go_run.
  all: rewrite ?Hcode in *; try discriminate.
  all: cbn [customer.envelope_entries fst] in Hlen.
  all: match goal with
       | H : _ = (_, _) |- _ => rewrite H in Hlen; cbn [fst] in Hlen
       end.
  all: injection Hlen as Hlen; apply nil_length_inv in Hlen.
  all: eexists _, _; split; [reflexivity|].
  all: cbn [fst]; rewrite Hlen; reflexivity.
Qed.

(** The scenario of the specification: GET /customers/xyz/funding-sources
    answered with 200 and an envelope whose funding-sources are []. *)
Lemma ListFundingSources_empty_scenario :
  let res := scenario.response 200 "200 OK" ""
               scenario.empty_funding_sources_body in
  let rt := scenario.answering res in
  let call := customer.CallListFundingSources (scenario.customer_with_id "xyz") in
  customer.answered rt (customer.run rt call) scenario.w0
    (scenario.the_request (customer.run rt call)) res
  /\ http.URL (scenario.the_request (customer.run rt call))
     = "https://api-sandbox.example.com/customers/xyz/funding-sources"
  /\ http.StatusCode res = 200
  /\ customer.envelope_entries rt call (http.Body res) = Some 0%nat
  /\ exists v w',
       customer.run rt call scenario.w0 = go.Ret (v, None) w'
       /\ customer.is_empty_sequence v = true.
Proof.
  intros res rt call.
  assert (Hans : customer.answered rt (customer.run rt call) scenario.w0
                   (scenario.the_request (customer.run rt call)) res)
    by (split; vm_compute; reflexivity).
  split; [exact Hans|]. split; [vm_compute; reflexivity|].
  split; [reflexivity|]. split; [vm_compute; reflexivity|].
  apply (list_empty_envelope rt call scenario.w0 _ res Hans eq_refl).
  vm_compute. reflexivity.
Defined.

(** ** The client reference of returned entities *)

Lemma range_body_elements c l st :
  customer.elements (fold_left (customer.range_body c) l st)
  = customer.elements st.
Proof.
  revert st. induction l as [|x l IH]; intros st; simpl; [done|].
  by rewrite IH.
Qed.

(** The loop of [List] assigns to its own variable only: the slice is as
    it was. *)
Lemma range_customers_elements c s :
  customer.elements (customer.range_customers c s) = s.
Proof. unfold customer.range_customers. by rewrite range_body_elements. Qed.

(** C5.  [List] answered with 200 returns the customers exactly as the
    decoder left them: the [Client] field of a returned customer is what
    decoding put there, not the client the call was made with. *)
Theorem List_returns_decoded_customers rt c w req res :
  customer.answered rt (customer.List rt c) w req res ->
  http.StatusCode res = 200 ->
  exists w',
    customer.List rt c w
    = go.Ret (default []
                (customer.listCustomers_Embedded
                   (fst (customer.json_Decode_listCustomersResponse rt
                           (http.Body res))) !! "customers"), None) w'.
Proof.
  intros [Hsent Hdo] Hcode. go_run.
  all: rewrite ?Hcode in *; try discriminate.
  eexists. rewrite range_customers_elements.
  match goal with H : _ = (_, _) |- _ => rewrite H end. reflexivity.
Qed.

(** [List] through the client [cl], answered with one customer: the
    customer comes back with a nil [Client]. *)
Lemma List_customer_without_client :
  let res := scenario.response 200 "200 OK" "" scenario.one_customer_body in
  let rt := scenario.answering res in
  customer.answered rt (customer.List rt (Some scenario.cl)) scenario.w0
    (scenario.the_request (customer.List rt (Some scenario.cl))) res
  /\ http.StatusCode res = 200
  /\ exists l w',
       customer.List rt (Some scenario.cl) scenario.w0 = go.Ret (l, None) w'
       /\ customer.Client <$> l = [None]
       /\ ~ Forall (fun cu => customer.Client cu = Some scenario.cl) l.
Proof.
  intros res rt.
  assert (Hans : customer.answered rt (customer.List rt (Some scenario.cl))
                   scenario.w0
                   (scenario.the_request (customer.List rt (Some scenario.cl)))
                   res)
    by (split; vm_compute; reflexivity).
  split; [exact Hans|]. split; [reflexivity|].
  destruct (List_returns_decoded_customers rt _ _ _ _ Hans eq_refl)
    as [w' Hrun].
  eexists _, w'. split; [exact Hrun|].
  split; [vm_compute; reflexivity|].
  intros HF. vm_compute in HF. inversion HF as [|? ? Hhd _]. discriminate Hhd.
Defined.

(** [GetCustomer] sets the field where [List] does not. *)
Lemma GetCustomer_sets_Client rt c customerID w cu e w' :
  customer.GetCustomer rt c customerID w = go.Ret (Some cu, e) w' ->
  customer.Client cu = c /\ e = None.
Proof.
  intros H. go_unfold.
  repeat match goal with
         | H : context [match ?x with _ => _ end] |- _ =>
             let y := innermost x in destruct y eqn:?
         end; simplify_eq; done.
Qed.

(** So does [ListFundingSources], which builds each resource anew. *)
Lemma append_source_Client cu l acc :
  Forall (fun s => funding.Client s = customer.Client cu) acc ->
  Forall (fun s => funding.Client s = customer.Client cu)
    (fold_left (customer.append_source cu) l acc).
Proof.
  revert acc. induction l as [|x l IH]; intros acc Hacc; simpl; [done|].
  apply IH. unfold customer.append_source.
  apply Forall_app. split; [done|]. by constructor.
Qed.

Lemma ListFundingSources_sets_Client rt cu w l e w' :
  customer.ListFundingSources rt cu w = go.Ret (l, e) w' ->
  Forall (fun s => funding.Client s = customer.Client cu) l.
Proof.
  intros H. go_unfold.
  repeat match goal with
         | H : context [match ?x with _ => _ end] |- _ =>
             let y := innermost x in destruct y eqn:?
         end; simplify_eq; try by constructor.
  match goal with H : customer.Client cu = _ |- _ => rewrite <- H end.
  apply append_source_Client. constructor.
Qed.

(** ** AddDocument *)

(** C6.  The request of [AddDocument] goes to the root URL followed by
    "/customers/+", the customer's ID and "/documents": the path has a plus
    sign between the slash and the ID. *)
Theorem AddDocument_url rt cu file documentType w req :
  go.hands_over (customer.AddDocument rt cu file documentType) w req ->
  exists cl,
    customer.Client cu = Some cl
    /\ http.URL req
       = client.RootURL cl +:+ "/customers/+" +:+ customer.ID cu +:+ "/documents".
Proof.
  intros Hsent. go_unfold. repeat go_step.
  all: eexists; split; reflexivity.
Qed.

(** For the customer xyz the upload goes to /customers/+xyz/documents, not
    to /customers/xyz/documents. *)
Lemma AddDocument_url_has_plus :
  let rt := scenario.answering (scenario.response 201 "201 Created" "" "") in
  let m := customer.AddDocument rt (scenario.customer_with_id "xyz")
             scenario.file "passport" in
  go.hands_over m scenario.w0 (scenario.the_request m)
  /\ http.URL (scenario.the_request m)
     = "https://api-sandbox.example.com/customers/+xyz/documents"
  /\ http.URL (scenario.the_request m)
     <> scenario.root +:+ "/customers/" +:+ "xyz" +:+ "/documents".
Proof.
  intros rt m.
  assert (Hsent : go.hands_over m scenario.w0 (scenario.the_request m))
    by (vm_compute; reflexivity).
  split; [exact Hsent|].
  destruct (AddDocument_url rt (scenario.customer_with_id "xyz") scenario.file
              "passport" scenario.w0 _ Hsent) as (cl & Hcl & Hurl).
  injection Hcl as <-.
  split; [rewrite Hurl; vm_compute; reflexivity|].
  rewrite Hurl. vm_compute. discriminate.
Defined.



(** ** The facade *)

(** [ListCustomers], [GetCustomer] and [GetDocument] hand back what the
    customer package returns. *)
Lemma ListCustomers_delegates rt c w :
  dwolla.ListCustomers rt c w = customer.List rt (dwolla.client_ c) w.
Proof. reflexivity. Qed.

Lemma GetCustomer_delegates rt c customerID w :
  dwolla.GetCustomer rt c customerID w
  = customer.GetCustomer rt (dwolla.client_ c) customerID w.
Proof. reflexivity. Qed.

Lemma GetDocument_delegates rt c documentID w :
  dwolla.GetDocument rt c documentID w
  = customer.GetDocument rt (dwolla.client_ c) documentID w.
Proof. reflexivity. Qed.

(** ** Headers *)

(** C9.  Every request an operation of the package hands to the HTTP
    client carries Authorization: Bearer and the token of the client the
    call goes through, and Accept with the vendor media type.  Under the
    name Content-Type it carries the vendor media type for [Create],
    [Update], [CreateFundingSource] and [CreateFundingSourceToken], a
    multipart form for [AddDocument], and nothing for the other operations:
    the requests of [CreateIAVFundingSourceToken] and [ListFundingSources]
    have the vendor media type under the name Conetent-Type, and
    [Header.Get] of Content-Type gives the empty string. *)
Theorem request_headers rt call w req :
  go.hands_over (customer.run rt call) w req ->
  exists cl,
    customer.client_of call = Some cl
    /\ http.Header_Get (http.ReqHeader req) "Authorization"
       = "Bearer " +:+ fst (client.AuthToken cl)
    /\ http.Header_Get (http.ReqHeader req) "Accept" = customer.halJSON
    /\ http.ReqHeader req !! "Content-Type"
       = (fun ct => [ct]) <$> content_type_header call
    /\ ((exists cu, call = customer.CallCreateIAVFundingSourceToken cu
                    \/ call = customer.CallListFundingSources cu) ->
        http.ReqHeader req !! "Conetent-Type" = Some [customer.halJSON]
        /\ http.Header_Get (http.ReqHeader req) "Content-Type" = "").
Proof.
  intros Hsent.
  destruct call; go_unfold; repeat go_step.
  all: cbn [customer.client_of content_type_header].
  all: eexists; split; [first [reflexivity | eassumption]|].
  all: match goal with H : client.AuthToken _ = _ |- _ => rewrite H end.
  all: split; [vm_compute; reflexivity|].
  all: split; [vm_compute; reflexivity|].
  all: split; [vm_compute; reflexivity|].
  all: intros [cu' [Hc | Hc]]; try discriminate Hc.
  all: split; vm_compute; reflexivity.
Qed.

(** The request of [CreateIAVFundingSourceToken] for the customer abc-123:
    no header named Content-Type. *)
Lemma CreateIAVFundingSourceToken_headers :
  let rt := fixtures.answering (fixtures.response 200 "200 OK" "{}") in
  let cu := customer.set_Client fixtures.decoded (Some scenario.cl) in
  let call := customer.CallCreateIAVFundingSourceToken cu in
  let req := scenario.the_request (customer.run rt call) in
  go.hands_over (customer.run rt call) scenario.w0 req
  /\ http.Header_Get (http.ReqHeader req) "Authorization" = "Bearer secret-token"
  /\ http.Header_Get (http.ReqHeader req) "Accept"
     = "application/vnd.dwolla.v1.hal+json"
  /\ http.ReqHeader req !! "Content-Type" = None
  /\ http.ReqHeader req !! "Conetent-Type"
     = Some ["application/vnd.dwolla.v1.hal+json"]
  /\ http.Header_Get (http.ReqHeader req) "Content-Type" <> customer.halJSON.
Proof.
  intros rt cu call req.
  assert (Hsent : go.hands_over (customer.run rt call) scenario.w0 req)
    by (vm_compute; reflexivity).
  split; [exact Hsent|].
  destruct (request_headers rt call scenario.w0 req Hsent)
    as (cl & Hcl & Hauth & Hacc & Hct & Hmiss).
  injection Hcl as <-.
  destruct Hmiss as [Hcon Hget]; [exists cu; left; reflexivity|].
  split; [exact Hauth|]. split; [exact Hacc|]. split; [exact Hct|].
  split; [exact Hcon|]. rewrite Hget. discriminate.
Defined.

(** X17.  The requests of [CreateIAVFundingSourceToken] and [ListFundingSources]
    carry the vendor media type under the name Conetent-Type, and nothing
    under the name Content-Type. *)
Lemma misspelt_content_type rt call w req :
  go.hands_over (customer.run rt call) w req ->
  (exists cu, call = customer.CallCreateIAVFundingSourceToken cu
              \/ call = customer.CallListFundingSources cu) ->
  http.ReqHeader req !! "Conetent-Type" = Some [customer.halJSON]
  /\ http.ReqHeader req !! "Content-Type" = None.
Proof.
  intros Hsent [cu [-> | ->]]; go_unfold; repeat go_step.
  all: split; vm_compute; reflexivity.
Qed.

(** ** ListTransfers *)

Lemma HasPrefix_other_first a s b p :
  a <> b -> gostrings.HasPrefix (String a s) (String b p) = false.
Proof.
  intros Hab. unfold gostrings.HasPrefix.
  apply andb_false_iff. right.
  apply String.eqb_neq. simpl. intros H. injection H as H _. congruence.
Qed.

(** C10.  With a client and a token at hand, and a URL that
    [http.NewRequest] accepts, [ListTransfers] hands one request to the
    HTTP client, whose URL is the Href of the customer's self link followed
    by "/transfers".  For a customer with no self link, the URL is
    "/transfers": it does not start with the root URL of the client,
    whenever that is not empty and does not begin with a slash. *)
Theorem ListTransfers_url rt cu w cl token :
  customer.Client cu = Some cl ->
  client.AuthToken cl = (token, None) ->
  customer.http_NewRequest_err rt "GET"
    (client.Href (default client.zeroLink (customer.Links cu !! "self"))
     +:+ "/transfers") = None ->
  exists req,
    go.hands_over (customer.ListTransfers rt cu) w req
    /\ http.URL req
       = client.Href (default client.zeroLink (customer.Links cu !! "self"))
         +:+ "/transfers"
    /\ (customer.Links cu !! "self" = None ->
        http.URL req = "/transfers"
        /\ forall a rest,
             client.RootURL cl = String a rest -> a <> "/"%char ->
             gostrings.HasPrefix (http.URL req) (client.RootURL cl) = false).
Proof.
  intros Hc Htok Hnew.
  eexists. split.
  { go_unfold. rewrite Hc, Htok, Hnew.
    repeat match goal with
           | |- context [match ?x with _ => _ end] =>
               let y := innermost x in destruct y eqn:?
           end; reflexivity. }
  split; [reflexivity|].
  intros Hself. cbn [http.URL http.Add]. rewrite Hself.
  split; [reflexivity|].
  intros a rest -> Ha. apply HasPrefix_other_first. congruence.
Qed.

(** A customer without links: the request goes to "/transfers". *)
Lemma ListTransfers_without_self_link :
  let rt := scenario.answering (scenario.response 200 "200 OK" "" "") in
  let cu := scenario.customer_with_id "xyz" in
  customer.Client cu = Some scenario.cl
  /\ client.AuthToken scenario.cl = ("secret-token", None)
  /\ customer.Links cu !! "self" = None
  /\ exists req,
       go.hands_over (customer.ListTransfers rt cu) scenario.w0 req
       /\ http.URL req = "/transfers"
       /\ gostrings.HasPrefix (http.URL req) (client.RootURL scenario.cl) = false.
Proof.
  intros rt cu.
  split; [reflexivity|]. split; [reflexivity|]. split; [reflexivity|].
  destruct (ListTransfers_url rt cu scenario.w0 scenario.cl "secret-token"
              eq_refl eq_refl eq_refl) as (req & Hsent & _ & Hnone).
  destruct (Hnone eq_refl) as [Hurl Hroot].
  exists req. split; [exact Hsent|]. split; [exact Hurl|].
  apply (Hroot "h"%char "ttps://api-sandbox.example.com"); [reflexivity|].
  discriminate.
Defined.

(** * Further properties of the customer package *)

Lemma no_request_sym {A} (l : list A) (x : A) : l ++ [x] = l -> False.
Proof. intros H. symmetry in H. exact (no_request _ _ H). Qed.

(** ** Before the request *)

(** X1.  When the client cannot give a token, every operation returns the
    zero value and the token error wrapped in "failed to get auth token",
    and leaves the world as it was: no request is sent. *)
Theorem auth_failure_sends_nothing rt call w cl token e :
  customer.client_of call = Some cl ->
  client.AuthToken cl = (token, Some e) ->
  exists v,
    customer.run rt call w
    = go.Ret (v, Some (errors.withMessage e "failed to get auth token")) w
    /\ customer.is_zero_value v = true.
Proof.
  intros Hc Htok.
  destruct call; cbn [customer.client_of] in Hc; go_unfold;
    rewrite Hc, Htok; eexists; split; reflexivity.
Qed.

Lemma auth_failure_ListTransfers :
  let cu := customer.set_Client fixtures.decoded (Some fixtures.no_token) in
  let rt := fixtures.answering (fixtures.response 200 "200 OK" "") in
  customer.client_of (customer.CallListTransfers cu) = Some fixtures.no_token
  /\ client.AuthToken fixtures.no_token
     = ("", Some (errors.fundamental "invalid_client"))
  /\ exists v,
       customer.run rt (customer.CallListTransfers cu) scenario.w0
       = go.Ret (v, Some (errors.withMessage
                            (errors.fundamental "invalid_client")
                            "failed to get auth token")) scenario.w0
       /\ customer.is_zero_value v = true.
Proof.
  intros cu rt. split; [reflexivity|]. split; [reflexivity|].
  exact (auth_failure_sends_nothing rt (customer.CallListTransfers cu)
           scenario.w0 fixtures.no_token "" _ eq_refl eq_refl).
Defined.

(** X2.  An operation whose client is nil (the argument [c], or the
    [Client] field of the receiver) panics at the call of [AuthToken], and
    the world is as it was: nothing is sent. *)
Theorem nil_client_panics rt call w :
  customer.client_of call = None ->
  customer.run rt call w = go.Panic w.
Proof.
  intros Hc.
  destruct call; cbn [customer.client_of] in Hc; go_unfold;
    rewrite Hc; reflexivity.
Qed.

(** [Create] with a nil client. *)
Lemma nil_client_panics_Create :
  let rt := fixtures.answering (fixtures.response 201 "201 Created" "") in
  let call := customer.CallCreate None fixtures.decoded in
  customer.client_of call = None
  /\ customer.run rt call scenario.w0 = go.Panic scenario.w0.
Proof.
  intros rt call. split; [reflexivity|].
  exact (nil_client_panics rt call scenario.w0 eq_refl).
Defined.

(** X3.  An operation that returns without having sent a request returns
    the zero value and an error that wraps its cause in the message of the
    stage that failed, and leaves the world as it was. *)
Theorem return_without_request rt call w v e w' :
  customer.run rt call w = go.Ret (v, e) w' ->
  go.sent w' = go.sent w ->
  w' = w
  /\ customer.is_zero_value v = true
  /\ exists cause msg,
       e = Some (errors.withMessage cause msg)
       /\ In msg table.stage_messages.
Proof.
  intros Hrun Hsent.
  destruct call; go_unfold; repeat go_case_in Hrun; simplify_eq.
  all: try match goal with
           | H : go.sent _ = go.sent _ |- _ =>
               cbn [go.sent] in H; exfalso; exact (no_request_sym _ _ H)
           end.
  all: split; [reflexivity|]; split; [reflexivity|].
  all: eexists _, _; split; [reflexivity|]; cbn; tauto.
Qed.

Lemma return_without_request_refused :
  let rt := fixtures.runtime (errors.New "parse: invalid URL")
              (fun _ => inr fixtures.unreachable) in
  let call := customer.CallUpdate
                (customer.set_Client fixtures.decoded (Some scenario.cl)) in
  let e := errors.withMessage (errors.fundamental "parse: invalid URL")
             "error creating the request" in
  customer.run rt call scenario.w0
  = go.Ret (customer.VNone, Some e) scenario.w0
  /\ exists cause msg,
       Some e = Some (errors.withMessage cause msg)
       /\ In msg table.stage_messages.
Proof.
  intros rt call e.
  assert (Hrun : customer.run rt call scenario.w0
                 = go.Ret (customer.VNone, Some e) scenario.w0)
    by (vm_compute; reflexivity).
  split; [exact Hrun|].
  exact (proj2 (proj2 (return_without_request rt call _ _ _ _ Hrun eq_refl))).
Defined.

(** ** The transport *)

(** X4.  When the HTTP client fails on the request, the operation returns
    the zero value and the transport error wrapped in "failed to make
    request to dwolla api". *)
Theorem transport_failure_wrapped rt call w req e :
  go.hands_over (customer.run rt call) w req ->
  customer.http_Do rt req = inr e ->
  exists v w',
    customer.run rt call w
    = go.Ret (v, Some (errors.withMessage e
                         "failed to make request to dwolla api")) w'
    /\ customer.is_zero_value v = true.
Proof.
  intros Hsent Hdo.
  destruct call; go_unfold; repeat go_step; go_same_answer.
  all: eexists _, _; split; reflexivity.
Qed.

Lemma transport_failure_GetDocument :
  let rt := fixtures.runtime None (fun _ => inr fixtures.unreachable) in
  let call := customer.CallGetDocument (Some scenario.cl) "doc-1" in
  go.hands_over (customer.run rt call) scenario.w0
    (scenario.the_request (customer.run rt call))
  /\ exists w',
       customer.run rt call scenario.w0
       = go.Ret (customer.VDocument None,
                 Some (errors.withMessage fixtures.unreachable
                         "failed to make request to dwolla api")) w'.
Proof.
  intros rt call.
  assert (Hsent : go.hands_over (customer.run rt call) scenario.w0
                    (scenario.the_request (customer.run rt call)))
    by (vm_compute; reflexivity).
  split; [exact Hsent|].
  destruct (transport_failure_wrapped rt call scenario.w0 _
              fixtures.unreachable Hsent eq_refl) as (v & w' & Hrun & _).
  exists w'. rewrite Hrun. vm_compute in Hrun.
  injection Hrun as <- _. reflexivity.
Defined.

(** X5.  An operation hands at most one request to the HTTP client:
    nothing is sent twice, nothing is retried. *)
Theorem at_most_one_request rt call w :
  go.sent (go.final_world (customer.run rt call w)) = go.sent w
  \/ exists req, go.hands_over (customer.run rt call) w req.
Proof.
  destruct call; go_unfold; repeat go_case;
    first [left; reflexivity | right; eexists; reflexivity].
Qed.

(** ** Standard output *)

(** X6.  An operation leaves standard output alone, with one exception:
    [Create] answered with status 400 copies the body of the response to
    it. *)
Theorem stdout_untouched_unless_Create_400 rt call w :
  go.stdout (go.final_world (customer.run rt call w)) = go.stdout w
  \/ exists c cu req res,
       call = customer.CallCreate c cu
       /\ customer.answered rt (customer.run rt call) w req res
       /\ http.StatusCode res = 400
       /\ go.stdout (go.final_world (customer.run rt call w))
          = go.stdout w +:+ http.Body res.
Proof.
  destruct call; go_unfold; repeat go_case; try (left; reflexivity).
  right. go_codes. eexists _, _, _, _.
  split; [reflexivity|]. split; [split; [reflexivity|eassumption]|].
  split; [assumption | reflexivity].
Qed.

(** X7.  [Create] answered with status 400 returns the duplicate or
    validation error, having copied the body of the response to standard
    output. *)
Theorem Create_400_prints_body rt c cu w req res :
  customer.answered rt (customer.Create rt c cu) w req res ->
  http.StatusCode res = 400 ->
  exists w',
    customer.Create rt c cu w
    = go.Ret ("", Some (errors.fundamental
                          "duplicate customer or validation error")) w'
    /\ go.stdout w' = go.stdout w +:+ http.Body res.
Proof.
  intros [Hsent Hdo] Hcode. go_run.
  all: rewrite ?Hcode in *; try discriminate.
  eexists; split; reflexivity.
Qed.

Lemma Create_400_scenario :
  let res := fixtures.response 400 "400 Bad Request" "{duplicate}" in
  let rt := fixtures.answering res in
  let m := customer.Create rt (Some scenario.cl) fixtures.decoded in
  customer.answered rt m scenario.w0 (scenario.the_request m) res
  /\ http.StatusCode res = 400
  /\ exists w', go.final_world (m scenario.w0) = w'
                /\ go.stdout w' = "{duplicate}".
Proof.
  intros res rt m.
  assert (Hans : customer.answered rt m scenario.w0 (scenario.the_request m) res)
    by (split; vm_compute; reflexivity).
  split; [exact Hans|]. split; [reflexivity|].
  destruct (Create_400_prints_body rt (Some scenario.cl) fixtures.decoded
              scenario.w0 _ res Hans eq_refl) as (w' & Hrun & Hout).
  exists w'. split; [unfold m; rewrite Hrun; reflexivity | exact Hout].
Defined.

(** ** The status switch *)

(** X9.  For every operation but [GetCustomer], the error is nil exactly
    when the status code of the answer is the operation's success code: 201
    for [Create], [AddDocument] and [CreateFundingSource], 200 for the
    others.  [GetCustomer] asks in addition that the body decodes. *)
Theorem nil_error_iff_success_code rt call w req res :
  customer.answered rt (customer.run rt call) w req res ->
  exists v e w',
    customer.run rt call w = go.Ret (v, e) w'
    /\ (e = None <->
        http.StatusCode res = taxonomy.success_code call
        /\ forall c customerID,
             call = customer.CallGetCustomer c customerID ->
             snd (customer.json_Decode_Customer rt (http.Body res)) = None).
Proof.
  intros [Hsent Hdo].
  destruct call; go_run; go_codes.
  all: eexists _, _, _; split; [reflexivity|].
  all: cbn [taxonomy.success_code]; unfold errors.New, errors.Wrap.
  all: split; [intros He | intros [Hc Hdec]].
  all: try discriminate He.
  all: try reflexivity.
  all: try (exfalso; lia).
  all: try match goal with
           | H : customer.json_Decode_Customer _ _ = _ |- _ =>
               try specialize (Hdec _ _ eq_refl); rewrite H in *;
               cbn [snd] in *
           end.
  all: try discriminate.
  all: split; [lia|]; intros ? ? Hcall; try discriminate Hcall; reflexivity.
Qed.

Lemma Update_201_is_an_error :
  let res := fixtures.response 201 "201 Created" "" in
  let rt := fixtures.answering res in
  let call := customer.CallUpdate
                (customer.set_Client fixtures.decoded (Some scenario.cl)) in
  customer.answered rt (customer.run rt call) scenario.w0
    (scenario.the_request (customer.run rt call)) res
  /\ exists v e w',
       customer.run rt call scenario.w0 = go.Ret (v, e) w' /\ e <> None.
Proof.
  intros res rt call.
  assert (Hans : customer.answered rt (customer.run rt call) scenario.w0
                   (scenario.the_request (customer.run rt call)) res)
    by (split; vm_compute; reflexivity).
  split; [exact Hans|].
  destruct (nil_error_iff_success_code rt call scenario.w0 _ res Hans)
    as (v & e & w' & Hrun & Hiff).
  exists v, e, w'. split; [exact Hrun|].
  intros He. apply Hiff in He. destruct He as [He _]. discriminate He.
Defined.

(** X10.  The one value and the one error: whenever an operation returns
    a non-nil error, the value next to it is the zero value. *)
Theorem error_comes_with_zero_value rt call w :
  match customer.run rt call w with
  | go.Ret (v, Some _) _ => customer.is_zero_value v = true
  | _ => True
  end.
Proof.
  destruct call; go_unfold; repeat go_case;
    cbn [fst snd]; unfold errors.New, errors.Wrap in *;
    simplify_eq; try reflexivity; exact I.
Qed.

(** ** What is returned on success *)

(** X11.  [GetCustomer] answered with 200 and a body that decodes returns
    the decoded customer with its [Client] field set to the client of the
    call, every other field as decoded. *)
Theorem GetCustomer_200_returns_decoded rt c customerID w req res body :
  customer.answered rt (customer.GetCustomer rt c customerID) w req res ->
  http.StatusCode res = 200 ->
  customer.json_Decode_Customer rt (http.Body res) = (body, None) ->
  exists cu w',
    customer.GetCustomer rt c customerID w = go.Ret (Some cu, None) w'
    /\ cu = customer.set_Client body c
    /\ customer.Client cu = c
    /\ customer.ID cu = customer.ID body
    /\ customer.Links cu = customer.Links body.
Proof.
  intros [Hsent Hdo] Hcode Hdec. go_run.
  all: rewrite ?Hcode in *; try discriminate.
  all: revert Hdec;
       match goal with
       | H : customer.json_Decode_Customer _ _ = _ |- _ => rewrite H
       end; intros ?; simplify_eq.
  eexists _, _. repeat split; reflexivity.
Qed.

Lemma GetCustomer_200_scenario :
  let res := fixtures.response 200 "200 OK" "{}" in
  let rt := fixtures.answering res in
  let m := customer.GetCustomer rt (Some scenario.cl) "abc-123" in
  customer.answered rt m scenario.w0 (scenario.the_request m) res
  /\ exists cu w',
       m scenario.w0 = go.Ret (Some cu, None) w'
       /\ customer.Client cu = Some scenario.cl
       /\ customer.ID cu = "abc-123".
Proof.
  intros res rt m.
  assert (Hans : customer.answered rt m scenario.w0 (scenario.the_request m) res)
    by (split; vm_compute; reflexivity).
  split; [exact Hans|].
  destruct (GetCustomer_200_returns_decoded rt (Some scenario.cl) "abc-123"
              scenario.w0 _ res fixtures.decoded Hans eq_refl eq_refl)
    as (cu & w' & Hrun & _ & Hcl & Hid & _).
  exists cu, w'. split; [exact Hrun|]. split; [exact Hcl | exact Hid].
Defined.

Lemma append_source_copies cu l acc dec :
  Forall2 (table.copied_from cu) acc dec ->
  Forall2 (table.copied_from cu)
    (fold_left (customer.append_source cu) l acc) (dec ++ l).
Proof.
  revert acc dec. induction l as [|s l IH]; intros acc dec H; simpl.
  - by rewrite app_nil_r.
  - replace (dec ++ s :: l) with ((dec ++ [s]) ++ l)
      by (by rewrite <- app_assoc).
    apply IH. unfold customer.append_source.
    apply Forall2_app; [done|]. constructor; [|constructor].
    unfold table.copied_from. cbn. tauto.
Qed.

(** X13.  [ListFundingSources] answered with 200 returns one funding
    source for each one the decoder delivered under "funding-sources", in
    the same order: the customer's client in [Client], every other field
    copied. *)
Theorem ListFundingSources_200_copies rt cu w req res :
  customer.answered rt (customer.ListFundingSources rt cu) w req res ->
  http.StatusCode res = 200 ->
  exists l w',
    customer.ListFundingSources rt cu w = go.Ret (l, None) w'
    /\ Forall2 (table.copied_from cu) l
         (default []
            (funding.Embedded
               (fst (customer.json_Decode_ListResourcesResponse rt
                       (http.Body res))) !! "funding-sources")).
Proof.
  intros [Hsent Hdo] Hcode. go_run.
  all: rewrite ?Hcode in *; try discriminate.
  eexists _, _. split; [reflexivity|].
  match goal with H : _ = (_, _) |- _ => rewrite H end. cbn [fst].
  apply (append_source_copies cu _ [] []). constructor.
Qed.

Lemma ListFundingSources_200_scenario :
  let res := fixtures.response 200 "200 OK" "{}" in
  let rt := fixtures.answering res in
  let cu := customer.set_Client fixtures.decoded (Some scenario.cl) in
  let m := customer.ListFundingSources rt cu in
  customer.answered rt m scenario.w0 (scenario.the_request m) res
  /\ exists l w',
       m scenario.w0 = go.Ret (l, None) w'
       /\ Forall2 (table.copied_from cu) l [fixtures.bank].
Proof.
  intros res rt cu m.
  assert (Hans : customer.answered rt m scenario.w0 (scenario.the_request m) res)
    by (split; vm_compute; reflexivity).
  split; [exact Hans|].
  exact (ListFundingSources_200_copies rt cu scenario.w0 _ res Hans eq_refl).
Defined.

(** X14.  [ListDocuments], [GetDocument], [CreateFundingSourceToken],
    [CreateIAVFundingSourceToken] and [ListTransfers] answered with 200
    return what the decoder left in the target as it is, with a nil error:
    in particular they attach no client to a document or a transfer. *)
Theorem decoded_returned_as_is rt call w req res v :
  customer.answered rt (customer.run rt call) w req res ->
  http.StatusCode res = 200 ->
  table.decoded_value rt call (http.Body res) = Some v ->
  exists w', customer.run rt call w = go.Ret (v, None) w'.
Proof.
  intros [Hsent Hdo] Hcode Hv.
  destruct call; try discriminate Hv; go_run.
  all: rewrite ?Hcode in *; try discriminate.
  all: cbn [table.decoded_value] in Hv.
  all: match goal with H : _ = (_, _) |- _ => rewrite H in Hv end.
  all: injection Hv as <-; eexists; reflexivity.
Qed.

Lemma ListDocuments_200_scenario :
  let res := fixtures.response 200 "200 OK" "{}" in
  let rt := fixtures.answering res in
  let call := customer.CallListDocuments
                (customer.set_Client fixtures.decoded (Some scenario.cl)) in
  customer.answered rt (customer.run rt call) scenario.w0
    (scenario.the_request (customer.run rt call)) res
  /\ exists w',
       customer.run rt call scenario.w0
       = go.Ret (customer.VDocuments [fixtures.document], None) w'
       /\ customer.Document_Client fixtures.document = None.
Proof.
  intros res rt call.
  assert (Hans : customer.answered rt (customer.run rt call) scenario.w0
                   (scenario.the_request (customer.run rt call)) res)
    by (split; vm_compute; reflexivity).
  split; [exact Hans|].
  destruct (decoded_returned_as_is rt call scenario.w0 _ res
              (customer.VDocuments [fixtures.document]) Hans eq_refl eq_refl)
    as [w' Hrun].
  exists w'. split; [exact Hrun | reflexivity].
Defined.

(** ** The request *)

(** The request an operation hands to the HTTP client: who it goes
    through, its method, URL, body and bearer token. *)
Lemma request_shape rt call w req :
  go.hands_over (customer.run rt call) w req ->
  exists cl,
    customer.client_of call = Some cl
    /\ http.Method req = table.method call
    /\ (forall p, table.path call = Some p ->
          http.URL req = client.RootURL cl +:+ p)
    /\ http.ReqBody req = table.body rt call
    /\ http.Header_Get (http.ReqHeader req) "Authorization"
       = "Bearer " +:+ fst (client.AuthToken cl).
Proof.
  intros Hsent.
  destruct call; go_unfold; repeat go_step.
  all: cbn [customer.client_of table.method table.path table.body].
  all: eexists; split; [first [reflexivity | eassumption]|].
  all: split; [reflexivity|].
  all: split; [intros p Hp; simplify_eq; reflexivity|].
  all: repeat match goal with
              | H : _ = (_, _) |- _ => rewrite H; clear H; cbn [fst]
              end.
  all: split; [reflexivity|].
  all: vm_compute; reflexivity.
Qed.



(** X16.  The body of the request: the JSON of the customer for [Create]
    and [Update], the JSON of the funding source for
    [CreateFundingSource], for [AddDocument] the multipart buffer after the
    file part, the copy of the file, the field documentType and the close,
    and no body for the other operations. *)
Theorem request_body rt call w req :
  go.hands_over (customer.run rt call) w req ->
  http.ReqBody req = table.body rt call.
Proof.
  intros Hsent.
  destruct (request_shape rt call w req Hsent) as (cl & _ & _ & _ & Hb & _).
  exact Hb.
Qed.

Lemma request_body_scenarios :
  let rt := fixtures.answering (fixtures.response 200 "200 OK" "{}") in
  let cu := customer.set_Client fixtures.decoded (Some scenario.cl) in
  let update := customer.CallUpdate cu in
  let mint := customer.CallCreateFundingSourceToken cu in
  (go.hands_over (customer.run rt update) scenario.w0
     (scenario.the_request (customer.run rt update))
   /\ http.ReqBody (scenario.the_request (customer.run rt update))
      = Some "{customer abc-123}")
  /\ (go.hands_over (customer.run rt mint) scenario.w0
        (scenario.the_request (customer.run rt mint))
      /\ http.ReqBody (scenario.the_request (customer.run rt mint)) = None).
Proof.
  intros rt cu update mint.
  assert (H1 : go.hands_over (customer.run rt update) scenario.w0
                 (scenario.the_request (customer.run rt update)))
    by (vm_compute; reflexivity).
  assert (H2 : go.hands_over (customer.run rt mint) scenario.w0
                 (scenario.the_request (customer.run rt mint)))
    by (vm_compute; reflexivity).
  split; (split; [assumption|]).
  - rewrite (request_body rt update scenario.w0 _ H1). reflexivity.
  - rewrite (request_body rt mint scenario.w0 _ H2). reflexivity.
Defined.

(** X17, in a run: the request of [ListFundingSources] for the customer
    abc-123 has the vendor media type under Conetent-Type. *)
Lemma misspelt_content_type_scenario :
  let rt := fixtures.answering (fixtures.response 200 "200 OK" "{}") in
  let cu := customer.set_Client fixtures.decoded (Some scenario.cl) in
  let call := customer.CallListFundingSources cu in
  go.hands_over (customer.run rt call) scenario.w0
    (scenario.the_request (customer.run rt call))
  /\ http.ReqHeader (scenario.the_request (customer.run rt call))
       !! "Conetent-Type" = Some [customer.halJSON]
  /\ http.ReqHeader (scenario.the_request (customer.run rt call))
       !! "Content-Type" = None.
Proof.
  intros rt cu call.
  assert (Hsent : go.hands_over (customer.run rt call) scenario.w0
                    (scenario.the_request (customer.run rt call)))
    by (vm_compute; reflexivity).
  split; [exact Hsent|].
  apply (misspelt_content_type rt call scenario.w0 _ Hsent).
  exists cu. right. reflexivity.
Defined.

(** X8, in a run: [Update] answered with 500 takes the default case. *)
Lemma default_case_Update_500 :
  let res := fixtures.response 500 "500 Internal Server Error" "" in
  let rt := fixtures.answering res in
  let call := customer.CallUpdate
                (customer.set_Client fixtures.decoded (Some scenario.cl)) in
  customer.answered rt (customer.run rt call) scenario.w0
    (scenario.the_request (customer.run rt call)) res
  /\ exists v w',
       customer.run rt call scenario.w0
       = go.Ret (v, Some (errors.fundamental "500 Internal Server Error")) w'
       /\ customer.is_zero_value v = true.
Proof.
  intros res rt call.
  assert (Hans : customer.answered rt (customer.run rt call) scenario.w0
                   (scenario.the_request (customer.run rt call)) res)
    by (split; vm_compute; reflexivity).
  split; [exact Hans|].
  apply (default_case_status_text rt call scenario.w0 _ res Hans).
  - vm_compute. discriminate.
  - vm_compute. intros [H | [H | []]]; discriminate H.
Defined.

(** ** The Location header *)

Lemma substring_empty n m : String.substring n m "" = "".
Proof. destruct n, m; reflexivity. Qed.

Lemma TrimPrefix_empty p : gostrings.TrimPrefix "" p = "".
Proof.
  unfold gostrings.TrimPrefix. destruct (gostrings.HasPrefix "" p); [|done].
  apply substring_empty.
Qed.

(** X18.  [Create] answered with 201 and a [Location] that does not start
    with the root URL followed by "/customers/" returns the [Location] as it
    is, with a nil error. *)
Theorem Create_201_foreign_Location rt c cu w req res :
  customer.answered rt (customer.Create rt c cu) w req res ->
  http.StatusCode res = 201 ->
  (forall cl, c = Some cl ->
     gostrings.HasPrefix (http.Header_Get (http.RespHeader res) "Location")
       (client.RootURL cl +:+ "/customers/") = false) ->
  exists w',
    customer.Create rt c cu w
    = go.Ret (http.Header_Get (http.RespHeader res) "Location", None) w'.
Proof.
  intros [Hsent Hdo] Hcode Hpre. go_run.
  all: rewrite ?Hcode in *; try discriminate.
  eexists. rewrite TrimPrefix_no_prefix; [reflexivity|].
  apply Hpre. reflexivity.
Qed.

Lemma Create_201_relative_Location :
  let res := scenario.response 201 "201 Created" "/customers/abc-123" "" in
  let rt := scenario.answering res in
  let m := customer.Create rt (Some scenario.cl) fixtures.decoded in
  customer.answered rt m scenario.w0 (scenario.the_request m) res
  /\ exists w', m scenario.w0 = go.Ret ("/customers/abc-123", None) w'.
Proof.
  intros res rt m.
  assert (Hans : customer.answered rt m scenario.w0 (scenario.the_request m) res)
    by (split; vm_compute; reflexivity).
  split; [exact Hans|].
  apply (Create_201_foreign_Location rt (Some scenario.cl) fixtures.decoded
           scenario.w0 _ res Hans eq_refl).
  intros cl Hcl. injection Hcl as <-. vm_compute. reflexivity.
Defined.

(** X19.  [Create] answered with 201 and no [Location] header returns the
    empty string as the id, with a nil error. *)
Theorem Create_201_without_Location rt c cu w req res :
  customer.answered rt (customer.Create rt c cu) w req res ->
  http.StatusCode res = 201 ->
  http.RespHeader res !! "Location" = None ->
  exists w', customer.Create rt c cu w = go.Ret ("", None) w'.
Proof.
  intros [Hsent Hdo] Hcode Hloc. go_run.
  all: rewrite ?Hcode in *; try discriminate.
  eexists. unfold http.Header_Get.
  change (textproto.CanonicalMIMEHeaderKey "Location") with "Location".
  rewrite Hloc, TrimPrefix_empty. reflexivity.
Qed.

Lemma Create_201_without_Location_scenario :
  let res := fixtures.response 201 "201 Created" "" in
  let rt := fixtures.answering res in
  let m := customer.Create rt (Some scenario.cl) fixtures.decoded in
  customer.answered rt m scenario.w0 (scenario.the_request m) res
  /\ http.RespHeader res !! "Location" = None
  /\ exists w', m scenario.w0 = go.Ret ("", None) w'.
Proof.
  intros res rt m.
  assert (Hans : customer.answered rt m scenario.w0 (scenario.the_request m) res)
    by (split; vm_compute; reflexivity).
  split; [exact Hans|]. split; [reflexivity|].
  exact (Create_201_without_Location rt (Some scenario.cl) fixtures.decoded
           scenario.w0 _ res Hans eq_refl eq_refl).
Defined.

(** ** One operation after another *)

(** A method of a customer with a nil [Client] panics. *)
Lemma nil_receiver_panics rt call cu w :
  table.receiver call = Some cu ->
  customer.Client cu = None ->
  customer.run rt call w = go.Panic w.
Proof.
  intros Hr Hc.
  destruct call; try discriminate Hr; cbn [table.receiver] in Hr;
    injection Hr as ->; go_unfold; rewrite Hc; reflexivity.
Qed.

(** X20.  The customers [List] returns are not fit for their own methods:
    when the decoder leaves the [Client] field nil, as it does for the
    vendor's JSON, every method called on a returned customer panics. *)
Theorem List_then_method_panics rt c w req res :
  customer.answered rt (customer.List rt c) w req res ->
  http.StatusCode res = 200 ->
  Forall (fun cu => customer.Client cu = None)
    (default []
       (customer.listCustomers_Embedded
          (fst (customer.json_Decode_listCustomersResponse rt (http.Body res)))
        !! "customers")) ->
  exists l w',
    customer.List rt c w = go.Ret (l, None) w'
    /\ forall cu call w2,
         In cu l -> table.receiver call = Some cu ->
         customer.run rt call w2 = go.Panic w2.
Proof.
  intros [Hsent Hdo] Hcode Hnil. go_run.
  all: rewrite ?Hcode in *; try discriminate.
  eexists _, _. split; [reflexivity|].
  intros cu call w2 Hin Hr.
  apply (nil_receiver_panics rt call cu w2 Hr).
  rewrite range_customers_elements in Hin.
  match goal with H : _ = (_, _) |- _ => rewrite H in Hnil end.
  cbn [fst] in Hnil. rewrite Forall_forall in Hnil.
  apply Hnil. by apply list_elem_of_In.
Qed.

Lemma List_then_ListTransfers_panics :
  let res := scenario.response 200 "200 OK" "" scenario.one_customer_body in
  let rt := scenario.answering res in
  let m := customer.List rt (Some scenario.cl) in
  customer.answered rt m scenario.w0 (scenario.the_request m) res
  /\ exists l w',
       m scenario.w0 = go.Ret (l, None) w'
       /\ length l = 1%nat
       /\ forall cu, In cu l ->
            customer.run rt (customer.CallListTransfers cu) w' = go.Panic w'.
Proof.
  intros res rt m.
  assert (Hans : customer.answered rt m scenario.w0 (scenario.the_request m) res)
    by (split; vm_compute; reflexivity).
  split; [exact Hans|].
  destruct (List_then_method_panics rt (Some scenario.cl) scenario.w0 _ res
              Hans eq_refl) as (l & w' & Hrun & Hpanic).
  { vm_compute. repeat constructor. }
  exists l, w'. split; [exact Hrun|]. split.
  - unfold m in Hrun. vm_compute in Hrun. injection Hrun as <- _. reflexivity.
  - intros cu Hin.
    exact (Hpanic cu (customer.CallListTransfers cu) w' Hin eq_refl).
Defined.

(** X21.  The customer [GetCustomer] returns is fit for its methods: a
    method called on it goes through the client of the call to
    [GetCustomer], and its request carries that client's token. *)
Theorem GetCustomer_then_method rt c customerID w cu w1 call w2 req :
  customer.GetCustomer rt c customerID w = go.Ret (Some cu, None) w1 ->
  table.receiver call = Some cu ->
  go.hands_over (customer.run rt call) w2 req ->
  exists cl,
    c = Some cl
    /\ customer.client_of call = Some cl
    /\ http.Header_Get (http.ReqHeader req) "Authorization"
       = "Bearer " +:+ fst (client.AuthToken cl).
Proof.
  intros Hget Hr Hsent.
  destruct (GetCustomer_sets_Client _ _ _ _ _ _ _ Hget) as [Hcl _].
  destruct (request_shape rt call w2 req Hsent)
    as (cl & Hc & _ & _ & _ & Hauth).
  exists cl. split; [|split; [exact Hc | exact Hauth]].
  rewrite <- Hcl, <- Hc.
  destruct call; try discriminate Hr; cbn [table.receiver] in Hr;
    injection Hr as ->; reflexivity.
Qed.

Lemma GetCustomer_then_Update_scenario :
  let rt := fixtures.answering (fixtures.response 200 "200 OK" "{}") in
  let get := customer.GetCustomer rt (Some scenario.cl) "abc-123" in
  exists cu w1,
    get scenario.w0 = go.Ret (Some cu, None) w1
    /\ go.hands_over (customer.run rt (customer.CallUpdate cu)) w1
         (scenario.the_request
            (fun _ => customer.run rt (customer.CallUpdate cu) w1))
    /\ http.Header_Get
         (http.ReqHeader
            (scenario.the_request
               (fun _ => customer.run rt (customer.CallUpdate cu) w1)))
         "Authorization" = "Bearer secret-token".
Proof.
  intros rt get.
  pose (cu := customer.set_Client fixtures.decoded (Some scenario.cl)).
  pose (w1 := go.final_world (get scenario.w0)).
  assert (Hget : get scenario.w0 = go.Ret (Some cu, None) w1)
    by (vm_compute; reflexivity).
  assert (Hsent : go.hands_over (customer.run rt (customer.CallUpdate cu)) w1
                    (scenario.the_request
                       (fun _ => customer.run rt (customer.CallUpdate cu) w1)))
    by (vm_compute; reflexivity).
  exists cu, w1. split; [exact Hget|]. split; [exact Hsent|].
  destruct (GetCustomer_then_method rt (Some scenario.cl) "abc-123"
              scenario.w0 cu w1 (customer.CallUpdate cu) w1 _
              Hget eq_refl Hsent) as (cl & Hcl & _ & Hauth).
  injection Hcl as <-. exact Hauth.
Defined.

(** ** AddDocument *)

(** X22.  [AddDocument] never returns an error wrapped in "error parsing
    file": the check that would return it comes after the same check has
    returned. *)
Theorem AddDocument_never_parsing_error rt cu file documentType w cause w' :
  customer.AddDocument rt cu file documentType w
  <> go.Ret (Some (errors.withMessage cause "error parsing file")) w'.
Proof.
  intros H. go_unfold. repeat go_case_in H.
  all: unfold errors.Wrap, errors.New in H; simplify_eq.
Qed.

(** ** GetCustomer and a body that does not decode *)

(** X12, in a run: [GetCustomer] answered with 200 and a body that is no
    JSON returns no customer and the decoder's error, wrapped. *)
Lemma GetCustomer_decode_error_scenario :
  let res := scenario.response 200 "200 OK" "" "<html>" in
  let rt := scenario.answering res in
  let m := customer.GetCustomer rt (Some scenario.cl) "abc-123" in
  customer.answered rt m scenario.w0 (scenario.the_request m) res
  /\ exists w',
       m scenario.w0
       = go.Ret (None,
                 Some (errors.withMessage
                         (errors.fundamental
                            "invalid character '<' looking for beginning of value")
                         "error parsing JSON response")) w'.
Proof.
  intros res rt m.
  assert (Hans : customer.answered rt m scenario.w0 (scenario.the_request m) res)
    by (split; vm_compute; reflexivity).
  split; [exact Hans|].
  exact (GetCustomer_decode_error_wrapped rt (Some scenario.cl) "abc-123"
           scenario.w0 _ res scenario.zeroCustomer _ Hans eq_refl eq_refl).
Defined.
